(** * nba-stats-vis: the extract endpoint ([src/elt/extract.py])

    A shallow embedding of the HTTP handler [process_nba_stats] and of the
    class [NBAStatsProcessor], and the properties the specification states
    about them.

    Python values that reach the handler are JSON values; dictionaries are
    finite maps.  The handler talks to three collaborators (the request
    object, the statistics provider, the object store); their answers are
    given by an environment of oracles that may depend on the history of
    external calls, and every call is recorded in a trace.  Python
    exceptions are the [Raise] results of an error-and-state monad; the
    exceptions modelled are the instances of [Exception], which is what the
    source's [except Exception] clauses catch. *)

From stdpp Require Import base gmap strings list pretty.

Set Warnings "-register-all".

(** ** Python values and the built-ins the source uses *)

Module Py.

(** What [request.get_json()] can return.  JSON numbers are modelled as
    integers: the endpoint's numeric inputs are player ids. *)
Inductive json : Type :=
  | JNull
  | JBool (b : bool)
  | JNum (n : Z)
  | JStr (s : string)
  | JArr (l : list json)
  | JObj (d : gmap string json).

(** An exception instance: its class name and [str(e)]. *)
Record Exn : Type := mkExn { exn_type : string; exn_str : string }.

Inductive Res (A : Type) : Type :=
  | Ok (a : A)
  | Raise (e : Exn).
Arguments Ok {A} a.
Arguments Raise {A} e.

Definition is_ok {A} (r : Res A) : bool :=
  match r with Ok _ => true | Raise _ => false end.

(** [bool(v)], as used by [not v] and by [all([...])]. *)
Definition truthy (v : json) : bool :=
  match v with
  | JNull => false
  | JBool b => b
  | JNum n => negb (n =? 0)%Z
  | JStr s => negb (String.eqb s "")
  | JArr l => match l with [] => false | _ :: _ => true end
  | JObj d => negb (Nat.eqb (size d) 0)
  end.

(** [all(vs)] over a list of values. *)
Definition py_all (vs : list json) : bool := forallb truthy vs.

(** [type(v).__name__] *)
Definition type_name (v : json) : string :=
  match v with
  | JNull => "NoneType"
  | JBool _ => "bool"
  | JNum _ => "int"
  | JStr _ => "str"
  | JArr _ => "list"
  | JObj _ => "dict"
  end.

Definition AttributeError (v : json) (attr : string) : Exn :=
  mkExn "AttributeError"
        ("'" +:+ type_name v +:+ "' object has no attribute '" +:+ attr +:+ "'").

Definition TypeError_not_iterable (v : json) : Exn :=
  mkExn "TypeError" ("'" +:+ type_name v +:+ "' object is not iterable").

Definition TypeError_no_len (v : json) : Exn :=
  mkExn "TypeError" ("object of type '" +:+ type_name v +:+ "' has no len()").

Definition IndexError : Exn := mkExn "IndexError" "list index out of range".

(** [d.get(k, dflt)] on a dictionary. *)
Definition dict_get (d : gmap string json) (k : string) (dflt : json) : json :=
  default dflt (d !! k).

(** [v.get(k, dflt)]: only dictionaries have the attribute [get]. *)
Definition py_get (v : json) (k : string) (dflt : json) : Res json :=
  match v with
  | JObj d => Ok (dict_get d k dflt)
  | _ => Raise (AttributeError v "get")
  end.

(** The elements [for x in v] runs through.  A string yields one-character
    strings and a dictionary yields its keys; the model splits a string at
    its bytes where Python splits at code points, which the handler cannot
    observe: its loop body fails on the first element of either. *)
Fixpoint str_iter (s : string) : list json :=
  match s with
  | EmptyString => []
  | String c s' => JStr (String c EmptyString) :: str_iter s'
  end.

Definition py_iter (v : json) : Res (list json) :=
  match v with
  | JArr l => Ok l
  | JStr s => Ok (str_iter s)
  | JObj d => Ok (map (fun kv => JStr (fst kv)) (map_to_list d))
  | _ => Raise (TypeError_not_iterable v)
  end.

(** [len(v)] *)
Definition py_len (v : json) : Res nat :=
  match v with
  | JArr l => Ok (length l)
  | JStr s => Ok (String.length s)
  | JObj d => Ok (size d)
  | _ => Raise (TypeError_no_len v)
  end.

(** [l[0]] on a list. *)
Definition py_index0 {A} (l : list A) : Res A :=
  match l with
  | x :: _ => Ok x
  | [] => Raise IndexError
  end.

(** [str(v)], which is what an f-string field [{v}] renders.  The text of
    a list or of a dictionary is its [repr], left to the parameter. *)
Definition py_str (repr : json -> string) (v : json) : string :=
  match v with
  | JNull => "None"
  | JBool true => "True"
  | JBool false => "False"
  | JNum n => pretty n
  | JStr s => s
  | JArr _ | JObj _ => repr v
  end.

Definition is_scalar (v : json) : bool :=
  match v with
  | JArr _ | JObj _ => false
  | _ => true
  end.

End Py.
Export Py.

(** ** Tables *)

Module Pandas.

(** Modelled from the spec: the StatsTable of the data model, a pandas
    DataFrame in the source (pandas is not part of the repository): rows
    are the entries, columns are the provider's fields, kept in order as
    (label, values) pairs with [nrows] values each. *)
Record DataFrame : Type := mkDataFrame {
  nrows : nat;
  columns : list (string * list json)
}.

Definition has_column (c : string) (df : DataFrame) : bool :=
  existsb (fun col => String.eqb (fst col) c) (columns df).

Definition column (c : string) (df : DataFrame) : option (list json) :=
  snd <$> find (fun col => String.eqb (fst col) c) (columns df).

(** Modelled from the spec: [df[c] = v] for a scalar [v] gives the column
    [c] the value [v] in every row; a column that is not in the table yet
    is appended after the others. *)
Definition setitem_scalar (df : DataFrame) (c : string) (v : json) : DataFrame :=
  let vals := replicate (nrows df) v in
  mkDataFrame (nrows df)
    (if has_column c df
     then map (fun col => if String.eqb (fst col) c then (fst col, vals) else col)
              (columns df)
     else columns df ++ [(c, vals)]).

Definition newline : string := String (Ascii.ascii_of_nat 10) EmptyString.

Definition csv_line (fields : list string) : string :=
  String.concat "," fields +:+ newline.

(** The cells of row [i], in column order. *)
Definition row (df : DataFrame) (i : nat) : list json :=
  map (fun col => nth i (snd col) JNull) (columns df).

Definition header (df : DataFrame) : list string := map fst (columns df).

(** Modelled from the spec: [df.to_csv(index=...)] renders delimited text,
    a header row and then one row per entry; the row labels form a first
    column only when [index] is set.  How one field is written (quoting,
    number formats) is the parameter [field]. *)
Definition to_csv (field : json -> string) (index : bool) (df : DataFrame) : string :=
  csv_line ((if index then [""] else []) ++ map (fun c => field (JStr c)) (header df))
  +:+ String.concat ""
        (map (fun i => csv_line ((if index then [pretty i] else [])
                                 ++ map field (row df i)))
             (seq 0 (nrows df))).

End Pandas.
Export Pandas.

(** ** The outside world: calls, trace, log *)

Module Outside.

(** One record per call that leaves the process. *)
Inductive Event : Type :=
  | EvProvider (player_id : json)
  | EvClient (project : json)
  | EvBucket (bucket : json)
  | EvBlob (bucket : json) (blob_name : string)
  | EvUpload (bucket : json) (blob_name : string) (data : string)
             (content_type : string) (stored : bool).

(** What the handler can change: the trace of external calls, in order,
    and the lines given to [logger.error]. *)
Record State : Type := mkState {
  trace : list Event;
  log : list string
}.

(** An object of the store. *)
Record GcsObject : Type := mkObject {
  obj_bucket : json;
  obj_key : string;
  obj_body : string;
  obj_content_type : string
}.

(** The [upload_from_string] calls of a trace, whatever their result. *)
Definition upload_calls (t : list Event) : list GcsObject :=
  omap (fun ev => match ev with
                  | EvUpload b k d c _ => Some (mkObject b k d c)
                  | _ => None
                  end) t.

(** The writes of a trace: the uploads the store accepted. *)
Definition stored_objects (t : list Event) : list GcsObject :=
  omap (fun ev => match ev with
                  | EvUpload b k d c true => Some (mkObject b k d c)
                  | _ => None
                  end) t.

Definition is_storage_call (ev : Event) : bool :=
  match ev with
  | EvBucket _ | EvBlob _ _ | EvUpload _ _ _ _ _ => true
  | EvProvider _ | EvClient _ => false
  end.

(** The calls of a trace that go through the storage client of a
    processor (everything the uploader does). *)
Definition storage_calls (t : list Event) : list Event :=
  List.filter is_storage_call t.

(** The object returned by [playercareerstats.PlayerCareerStats(...)]. *)
Record Career : Type := mkCareer {
  get_data_frames : Res (list DataFrame)
}.

(** The collaborators.  Each oracle sees the calls made so far, so that an
    answer may change from one call to the next. *)
Record Env : Type := mkEnv {
  PlayerCareerStats : list Event -> json -> Res Career;
  storage_Client : list Event -> json -> Res unit;
  Client_bucket : list Event -> json -> Res unit;
  Bucket_blob : list Event -> json -> string -> Res unit;
  Blob_upload_from_string :
    list Event -> json -> string -> string -> string -> Res unit;
  (** [df[c] = v] for a list or a dictionary [v] *)
  setitem_listlike : DataFrame -> string -> json -> Res DataFrame;
  (** how [to_csv] writes one field *)
  csv_field : json -> string;
  (** [repr] of a list or a dictionary *)
  repr : json -> string;
  (** [traceback.format_exc()] while handling the exception *)
  format_exc : Exn -> string
}.

(** The request object given to the handler. *)
Record Request : Type := mkRequest {
  get_json : Res json
}.

End Outside.
Export Outside.

(** ** Exceptions and state *)

Definition M (A : Type) : Type := State -> Res A * State.

Definition ret {A} (a : A) : M A := fun w => (Ok a, w).

Definition bind {A B} (m : M A) (k : A -> M B) : M B :=
  fun w => match m w with
           | (Ok a, w') => k a w'
           | (Raise e, w') => (Raise e, w')
           end.

Definition lift {A} (r : Res A) : M A := fun w => (r, w).

(** [try: body  except Exception as e: handler] *)
Definition try_except {A} (body : M A) (handler : Exn -> M A) : M A :=
  fun w => match body w with
           | (Ok a, w') => (Ok a, w')
           | (Raise e, w') => handler e w'
           end.

Notation "'let*' x := m 'in' k" := (bind m (fun x => k))
  (at level 10, x name, m at level 100, k at level 200, only parsing).

Definition logger_error (msg : string) : M unit :=
  fun w => (Ok tt, mkState (trace w) (log w ++ [msg])).

(** A call to a collaborator: the oracle answers from the calls so far
    and the call joins the trace. *)
Definition external {A} (oracle : list Event -> Res A) (ev : Event) : M A :=
  fun w => (oracle (trace w), mkState (trace w ++ [ev]) (log w)).

(** ** The program *)

(** An instance of the class: the attributes set by [__init__].  The
    storage client is a handle on the project it was made for. *)
Record NBAStatsProcessor : Type := mkProcessor {
  self_project_id : json;
  self_bucket_name : json;
  self_storage_client : json
}.

(** One entry of [results]. *)
Record Outcome : Type := mkOutcome {
  player_id : json;
  name : json;
  success : bool;
  message : string
}.

(** The two shapes of dictionary the handler returns. *)
Inductive Body : Type :=
  | ErrorBody (success : bool) (error : string)
  | ReportBody (success : bool) (total_processed : nat) (success_count : nat)
               (results : list Outcome).

Definition Response : Type := Body * Z.

Definition count_success (results : list Outcome) : nat :=
  length (List.filter success results).

Section Program.

Variable env : Env.

Definition str (v : json) : string := py_str (repr env) v.

(** [df[c] = v] *)
Definition setitem (df : DataFrame) (c : string) (v : json) : Res DataFrame :=
  if is_scalar v then Ok (setitem_scalar df c v) else setitem_listlike env df c v.

(** [blob.upload_from_string(data, content_type=...)]: the store answers,
    and the call is recorded with what became of it. *)
Definition upload_from_string (bucket : json) (blob_name data content_type : string)
  : M unit :=
  fun w =>
    let r := Blob_upload_from_string env (trace w) bucket blob_name data content_type in
    (r, mkState (trace w ++ [EvUpload bucket blob_name data content_type (is_ok r)])
                (log w)).

(** [NBAStatsProcessor(project_id, bucket_name)] *)
Definition NBAStatsProcessor_init (project_id bucket_name : json)
  : M NBAStatsProcessor :=
  let* _ := external (fun t => storage_Client env t project_id) (EvClient project_id) in
  ret (mkProcessor project_id bucket_name project_id).

Definition get_player_stats (self : NBAStatsProcessor) (player_id player_name : json)
  : M (option DataFrame) :=
  try_except
    (let* career := external (fun t => PlayerCareerStats env t player_id)
                        (EvProvider player_id) in
     let* frames := lift (get_data_frames career) in
     let* df := lift (py_index0 frames) in
     let* df := lift (setitem df "PLAYER_NAME" player_name) in
     ret (Some df))
    (fun e =>
       let* _ := logger_error ("選手ID " +:+ str player_id +:+ " のデータ取得エラー: "
                        +:+ exn_str e) in
       ret None).

Definition upload_to_gcs (self : NBAStatsProcessor) (data : DataFrame)
           (blob_name : string) : M bool :=
  try_except
    (let* _ := external (fun t => Client_bucket env t (self_bucket_name self))
                 (EvBucket (self_bucket_name self)) in
     let* _ := external (fun t => Bucket_blob env t (self_bucket_name self) blob_name)
                 (EvBlob (self_bucket_name self) blob_name) in
     let csv_data := to_csv (csv_field env) false data in
     let* _ := upload_from_string (self_bucket_name self) blob_name csv_data "text/csv" in
     ret true)
    (fun e =>
       let* _ := logger_error ("GCSアップロードエラー: " +:+ exn_str e) in
       ret false).

Definition fetch_failed (player_name : json) : string :=
  "選手 " +:+ str player_name +:+ " のデータ取得に失敗しました".

Definition upload_failed (player_name : json) : string :=
  "選手 " +:+ str player_name +:+ " のデータのアップロードに失敗しました".

Definition processed (player_name : json) : string :=
  "選手 " +:+ str player_name +:+ " のデータを正常に処理しました".

Definition processing_error (player_name : json) (e : Exn) : string :=
  "選手 " +:+ str player_name +:+ " の処理中にエラー発生: " +:+ exn_str e.

Definition blob_name_of (player_id : json) : string :=
  "player_stats/" +:+ str player_id +:+ "_play_stats.csv".

(** The body of [process_player], over the two methods it reaches through
    [self]. *)
Definition process_player_with
           (fetch : json -> json -> M (option DataFrame))
           (upload : DataFrame -> string -> M bool)
           (player_id player_name : json) : M (bool * string) :=
  try_except
    (let* df := fetch player_id player_name in
     match df with
     | None => ret (false, fetch_failed player_name)
     | Some df =>
         let blob_name := blob_name_of player_id in
         let* uploaded := upload df blob_name in
         if (uploaded : bool) then ret (true, processed player_name)
         else ret (false, upload_failed player_name)
     end)
    (fun e => ret (false, processing_error player_name e)).

Definition process_player (self : NBAStatsProcessor) (player_id player_name : json)
  : M (bool * string) :=
  process_player_with (get_player_stats self) (upload_to_gcs self)
                      player_id player_name.

(** The [for player in players] loop, with its two accumulators. *)
Fixpoint for_each_player (processor : NBAStatsProcessor) (players : list json)
         (results : list Outcome) (success_count : nat)
  : M (list Outcome * nat) :=
  match players with
  | [] => ret (results, success_count)
  | player :: rest =>
      let* arg_id := lift (py_get player "id" JNull) in
      let* arg_name := lift (py_get player "name" JNull) in
      let* sm := process_player processor arg_id arg_name in
      let* out_id := lift (py_get player "id" JNull) in
      let* out_name := lift (py_get player "name" JNull) in
      let results := results ++ [mkOutcome out_id out_name (fst sm) (snd sm)] in
      let success_count := if fst sm then S success_count else success_count in
      for_each_player processor rest results success_count
  end.

Definition body_required : string := "リクエストボディが必要です".

Definition fields_required : string := "project_id, bucket_name, players が必要です".

(** The [try] block of the handler. *)
Definition handler_try (request : Request) : M Response :=
  let* request_json := lift (get_json request) in
  if negb (truthy request_json) then ret (ErrorBody false body_required, 400%Z)
  else
    let* project_id := lift (py_get request_json "project_id" JNull) in
    let* bucket_name := lift (py_get request_json "bucket_name" JNull) in
    let* players := lift (py_get request_json "players" (JArr [])) in
    if negb (py_all [project_id; bucket_name; players])
    then ret (ErrorBody false fields_required, 400%Z)
    else
      let* processor := NBAStatsProcessor_init project_id bucket_name in
      let* items := lift (py_iter players) in
      let* acc := for_each_player processor items [] 0 in
      let* total := lift (py_len players) in
      ret (ReportBody true total (snd acc) (fst acc), 200%Z).

Definition process_nba_stats (request : Request) : M Response :=
  try_except
    (handler_try request)
    (fun e =>
       let* _ := logger_error ("予期せぬエラーが発生しました: " +:+ format_exc env e) in
       ret (ErrorBody false (exn_str e), 500%Z)).

End Program.

(** ** Notions the properties are stated with *)

(** The field [k] of a request body, when the body is an object that has
    it. *)
Definition field (body : json) (k : string) : option json :=
  match body with
  | JObj d => d !! k
  | _ => None
  end.

(** A field that is absent, or present with a falsy value. *)
Definition absent_or_falsy (o : option json) : bool :=
  match o with
  | None => true
  | Some v => negb (truthy v)
  end.

(** The Request Validator of the specification: the three fields of a
    body that passes the two checks of the handler. *)
Definition validate (body : json) : option (json * json * json) :=
  match body with
  | JObj d =>
      let project_id := dict_get d "project_id" JNull in
      let bucket_name := dict_get d "bucket_name" JNull in
      let players := dict_get d "players" (JArr []) in
      if truthy body && py_all [project_id; bucket_name; players]
      then Some (project_id, bucket_name, players)
      else None
  | _ => None
  end.

Definition is_object (v : json) : bool :=
  match v with
  | JObj _ => true
  | _ => false
  end.

(** The outcome [o] is the one of the player entry [p]: its first two
    fields are what [p.get("id")] and [p.get("name")] give. *)
Definition echoes (p : json) (o : Outcome) : Prop :=
  exists d, p = JObj d /\
            player_id o = dict_get d "id" JNull /\
            name o = dict_get d "name" JNull.

(** A response with one of the three shapes of the interface. *)
Definition structured (r : Response) : bool :=
  match r with
  | (ErrorBody false _, st) => (st =? 400)%Z || (st =? 500)%Z
  | (ReportBody true _ _ _, st) => (st =? 200)%Z
  | _ => false
  end.

(** What the provider has for a player: the first table of the answer, or
    the error of the call, of [get_data_frames] or of [[0]]. *)
Definition provider_table (env : Env) (t : list Event) (player_id : json)
  : Res DataFrame :=
  match PlayerCareerStats env t player_id with
  | Ok career =>
      match get_data_frames career with
      | Ok frames => py_index0 frames
      | Raise e => Raise e
      end
  | Raise e => Raise e
  end.

(** The object the uploader writes for a player and a table. *)
Definition object_for (env : Env) (self : NBAStatsProcessor) (player_id : json)
           (df : DataFrame) : GcsObject :=
  mkObject (self_bucket_name self) (blob_name_of env player_id)
           (to_csv (csv_field env) false df) "text/csv".

(** ** Concrete collaborators and requests, for running the model *)

Module Demo.

Definition table : DataFrame :=
  mkDataFrame 2 [("SEASON_ID", [JStr "2003-04"; JStr "2004-05"]);
                 ("PTS", [JNum 1654; JNum 2175])].

Definition answer (ok : bool) (class text : string) : Res unit :=
  if ok then Ok tt else Raise (mkExn class text).

Definition known_id (unknown : list Z) (player_id : json) : bool :=
  match player_id with
  | JNum n => negb (bool_decide (n ∈ unknown))
  | _ => false
  end.

(** Collaborators that answer the same way on every call: the provider
    has one table for every integer id outside [unknown] and fails for
    anything else; the client constructor and the store work or not as
    the flags say. *)
Definition env (unknown : list Z) (client_ok store_ok : bool) : Env :=
  mkEnv
    (fun _ player_id =>
       if known_id unknown player_id then Ok (mkCareer (Ok [table]))
       else Raise (mkExn "JSONDecodeError" "Expecting value: line 1 column 1 (char 0)"))
    (fun _ _ => answer client_ok "DefaultCredentialsError" "no credentials")
    (fun _ _ => Ok tt)
    (fun _ _ _ => Ok tt)
    (fun _ _ _ _ _ => answer store_ok "Forbidden" "403 access denied")
    (fun _ _ _ => Raise (mkExn "ValueError" "Length of values does not match length of index"))
    (py_str (fun _ => "[...]"))
    (fun _ => "[...]")
    exn_str.

Definition lebron : json :=
  JObj (<["id" := JNum 2544]> (<["name" := JStr "LeBron James"]> ∅)).

Definition curry : json :=
  JObj (<["id" := JNum 201939]> (<["name" := JStr "Stephen Curry"]> ∅)).

(** A player entry that has neither [id] nor [name]. *)
Definition anonymous : json := JObj (<["team" := JStr "LAL"]> ∅).

Definition body_of (players : json) : json :=
  JObj (<["project_id" := JStr "your-project-id"]>
        (<["bucket_name" := JStr "your-bucket-name"]>
         (<["players" := players]> ∅))).

(** The test data of the source's [__main__] block. *)
Definition test_data : json := body_of (JArr [lebron; curry]).

Definition request_of (body : json) : Request := mkRequest (Ok body).

Definition start : State := mkState [] [].

Definition processor : NBAStatsProcessor :=
  mkProcessor (JStr "your-project-id") (JStr "your-bucket-name") (JStr "your-project-id").

End Demo.

(** ** Notions for the effects of a request *)

(** The player ids the provider was asked for, in the order of the calls. *)
Definition provider_calls (t : list Event) : list json :=
  omap (fun ev => match ev with
                  | EvProvider i => Some i
                  | _ => None
                  end) t.

(** The projects a storage client was made for. *)
Definition client_calls (t : list Event) : list json :=
  omap (fun ev => match ev with
                  | EvClient p => Some p
                  | _ => None
                  end) t.

(** [player.get("id")] for an entry that is an object. *)
Definition entry_id (player : json) : json :=
  match player with
  | JObj d => dict_get d "id" JNull
  | _ => JNull
  end.

(** The class [MockRequest] of the source: [get_json] returns the data the
    request was made with. *)
Definition MockRequest (json_data : json) : Request := mkRequest (Ok json_data).

(** What [str(e)] is when the [for] loop of the handler fails on a value
    that is truthy and not a list: a number or a boolean cannot be
    iterated; a string or a dictionary yields strings, which have no
    [get]. *)
Definition not_a_list_error (players : json) : string :=
  match players with
  | JStr _ | JObj _ => exn_str (AttributeError (JStr "") "get")
  | _ => exn_str (TypeError_not_iterable players)
  end.

Definition is_list (v : json) : bool :=
  match v with
  | JArr _ => true
  | _ => false
  end.

(** What the [except] clause of the handler makes of the exception [e]
    that reaches it in the state [w]: one line in the log, and the 500
    response that carries [str(e)]. *)
Definition internal_error (env : Env) (e : Exn) (w : State) : Res Response * State :=
  (Ok (ErrorBody false (exn_str e), 500%Z),
   mkState (trace w)
           (log w ++ ["予期せぬエラーが発生しました: " +:+ format_exc env e])).

(** The number of player entries of a request body: the length of its
    [players] when that is a list. *)
Definition entries (players : json) : nat :=
  match players with
  | JArr l => length l
  | _ => 0
  end.

(** The three fields of a request that passes the validation. *)
Definition validated (request : Request) : option (json * json * json) :=
  match get_json request with
  | Ok body => validate body
  | Raise _ => None
  end.

(** * Properties *)

(** ** Traces *)

Lemma upload_calls_app t1 t2 :
  upload_calls (t1 ++ t2) = upload_calls t1 ++ upload_calls t2.
Proof. apply omap_app. Qed.

Lemma stored_objects_app t1 t2 :
  stored_objects (t1 ++ t2) = stored_objects t1 ++ stored_objects t2.
Proof. apply omap_app. Qed.

Lemma storage_calls_app t1 t2 :
  storage_calls (t1 ++ t2) = storage_calls t1 ++ storage_calls t2.
Proof. apply List.filter_app. Qed.

(** ** Tables *)

Lemma find_map_other (c c' : string) (vals : list json) cols :
  c' <> c ->
  find (fun col : string * list json => String.eqb (fst col) c')
       (map (fun col => if String.eqb (fst col) c then (fst col, vals) else col) cols)
  = find (fun col => String.eqb (fst col) c') cols.
Proof.
  intros Hne. induction cols as [|[k vs] cols IH]; simpl; [done|].
  destruct (String.eqb_spec k c) as [->|Hk]; simpl.
  - destruct (String.eqb_spec c c'); [congruence | apply IH].
  - destruct (String.eqb_spec k c'); [done | apply IH].
Qed.

Lemma find_map_same (c : string) (vals : list json) cols :
  existsb (fun col : string * list json => String.eqb (fst col) c) cols = true ->
  snd <$> find (fun col : string * list json => String.eqb (fst col) c)
       (map (fun col => if String.eqb (fst col) c then (fst col, vals) else col) cols)
  = Some vals.
Proof.
  induction cols as [|[k vs] cols IH]; simpl; [done|].
  destruct (String.eqb_spec k c) as [->|Hk]; simpl.
  - rewrite String.eqb_refl. done.
  - destruct (String.eqb_spec k c); [congruence | apply IH].
Qed.

Lemma find_app_new (c : string) (vals : list json) cols :
  existsb (fun col : string * list json => String.eqb (fst col) c) cols = false ->
  snd <$> find (fun col : string * list json => String.eqb (fst col) c)
               (cols ++ [(c, vals)])
  = Some vals.
Proof.
  induction cols as [|[k vs] cols IH]; simpl.
  - rewrite String.eqb_refl. done.
  - destruct (String.eqb_spec k c); simpl; [done | apply IH].
Qed.

Lemma find_app_other (c c' : string) (vals : list json) cols :
  c' <> c ->
  find (fun col : string * list json => String.eqb (fst col) c') (cols ++ [(c, vals)])
  = find (fun col => String.eqb (fst col) c') cols.
Proof.
  intros Hne. induction cols as [|[k vs] cols IH]; simpl.
  - destruct (String.eqb_spec c c'); [congruence | done].
  - destruct (String.eqb_spec k c'); [done | apply IH].
Qed.

(** After [df[c] = v] the column [c] holds [v] in every row. *)
Lemma setitem_scalar_column df c v :
  column c (setitem_scalar df c v) = Some (replicate (nrows df) v).
Proof.
  unfold column, setitem_scalar, has_column; simpl.
  destruct (existsb _ (columns df)) eqn:Hc.
  - by apply find_map_same.
  - by apply find_app_new.
Qed.

(** [df[c] = v] leaves the other columns and the rows as they were. *)
Lemma setitem_scalar_frame df c v c' :
  c' <> c -> column c' (setitem_scalar df c v) = column c' df.
Proof.
  intros Hne. unfold column, setitem_scalar, has_column; simpl.
  destruct (existsb _ (columns df)).
  - by rewrite find_map_other.
  - by rewrite find_app_other.
Qed.

(** A column that was not in the table is added after the others. *)
Lemma setitem_scalar_appends df c v :
  has_column c df = false ->
  columns (setitem_scalar df c v) = columns df ++ [(c, replicate (nrows df) v)].
Proof. intros H. unfold setitem_scalar. simpl. by rewrite H. Qed.

(** Without the index, the text is the header line and one line per row,
    each with one field per column. *)
Lemma to_csv_no_index fld df :
  to_csv fld false df =
  csv_line (map (fun c => fld (JStr c)) (header df))
  +:+ String.concat "" (map (fun i => csv_line (map fld (row df i)))
                            (seq 0 (nrows df))).
Proof. reflexivity. Qed.

Lemma to_csv_row_width df i : length (row df i) = length (header df).
Proof. unfold row, header. by rewrite !length_map. Qed.

(** Running a computation of the monad: its combinators are unfolded. *)
Ltac run :=
  unfold try_except, bind, ret, lift, external, logger_error, upload_from_string;
  simpl.

Ltac run_in H :=
  unfold try_except, bind, ret, lift, external, logger_error, upload_from_string in H;
  simpl in H.

(** ** The methods of the processor *)

Section Methods.

Variable env : Env.


(** The fetch makes one call, to the provider, and always returns. *)
Lemma get_player_stats_run self id name w :
  exists r lg,
    get_player_stats env self id name w
    = (Ok r, mkState (trace w ++ [EvProvider id]) lg) /\
    r = match provider_table env (trace w) id with
        | Raise _ => None
        | Ok df => match setitem env df "PLAYER_NAME" name with
                   | Ok df' => Some df'
                   | Raise _ => None
                   end
        end.
Proof.
  unfold get_player_stats, provider_table. run.
  destruct (PlayerCareerStats env (trace w) id) as [career|e]; simpl; [|eauto].
  destruct (get_data_frames career) as [frames|e]; simpl; [|eauto].
  destruct (py_index0 frames) as [df|e]; simpl; [|eauto].
  destruct (setitem env df "PLAYER_NAME" name) as [df'|e]; simpl; eauto.
Qed.

(** The uploader always returns; it has written its one object when it
    says [True] and nothing when it says [False]. *)
Lemma upload_to_gcs_run self df k w :
  exists b w',
    upload_to_gcs env self df k w = (Ok b, w') /\
    let obj := mkObject (self_bucket_name self) k
                        (to_csv (csv_field env) false df) "text/csv" in
    if b
    then stored_objects (trace w') = stored_objects (trace w) ++ [obj] /\
         upload_calls (trace w') = upload_calls (trace w) ++ [obj]
    else stored_objects (trace w') = stored_objects (trace w) /\
         (upload_calls (trace w') = upload_calls (trace w) \/
          upload_calls (trace w') = upload_calls (trace w) ++ [obj]).
Proof.
  unfold upload_to_gcs. run.
  destruct (Client_bucket env (trace w) (self_bucket_name self)) as [[]|e]; simpl.
  2:{ eexists false, _. split; [done|]. simpl.
      rewrite stored_objects_app, upload_calls_app. simpl.
      rewrite !app_nil_r. auto. }
  destruct (Bucket_blob env _ (self_bucket_name self) k) as [[]|e]; simpl.
  2:{ eexists false, _. split; [done|]. simpl.
      rewrite !stored_objects_app, !upload_calls_app. simpl.
      rewrite !app_nil_r. auto. }
  destruct (Blob_upload_from_string env _ _ _ _ _) as [[]|e]; simpl.
  - eexists true, _. split; [done|]. simpl.
    rewrite !stored_objects_app, !upload_calls_app. simpl.
    rewrite !app_nil_r. auto.
  - eexists false, _. split; [done|]. simpl.
    rewrite !stored_objects_app, !upload_calls_app. simpl.
    rewrite !app_nil_r. auto.
Qed.

(** The four results of the composition, over any two methods. *)
Lemma process_player_with_run fetch upload id name w :
  exists out w',
    process_player_with env fetch upload id name w = (Ok out, w') /\
    match fetch id name w with
    | (Ok None, w1) => out = (false, fetch_failed env name) /\ w' = w1
    | (Ok (Some df), w1) =>
        match upload df (blob_name_of env id) w1 with
        | (Ok true, w2) => out = (true, processed env name) /\ w' = w2
        | (Ok false, w2) => out = (false, upload_failed env name) /\ w' = w2
        | (Raise e, w2) => out = (false, processing_error env name e) /\ w' = w2
        end
    | (Raise e, w1) => out = (false, processing_error env name e) /\ w' = w1
    end.
Proof.
  unfold process_player_with. run.
  destruct (fetch id name w) as [[[df|]|e] w1]; simpl; eauto.
  destruct (upload df (blob_name_of env id) w1) as [[[|]|e] w2]; simpl; eauto.
Qed.

(** One player's processing always returns a pair. *)
Lemma process_player_returns self id name w :
  exists s m w', process_player env self id name w = (Ok (s, m), w').
Proof.
  destruct (process_player_with_run (get_player_stats env self)
              (upload_to_gcs env self) id name w) as ([s m] & w' & H & _).
  by exists s, m, w'.
Qed.

End Methods.

(** ** The stats fetcher *)

(** C8: for every player id and name the stats fetcher returns and never
    raises; when the provider call fails (the request, the decoding of the
    answer, or an answer without a table) the result is absent; when the
    provider has a table, the result is that first table in which the
    column PLAYER_NAME holds the supplied name in every row, the rows and
    the other columns being the provider's, and the column comes after
    the others when the provider had none of that label.  The name is a
    scalar, as the player names of the interface are. *)
Theorem get_player_stats_absent_or_first_table
        env self id player_name w :
  (exists r w', get_player_stats env self id player_name w = (Ok r, w')) /\
  (forall e, provider_table env (trace w) id = Raise e ->
             (get_player_stats env self id player_name w).1 = Ok None) /\
  (forall df,
      provider_table env (trace w) id = Ok df ->
      is_scalar player_name = true ->
      let df' := setitem_scalar df "PLAYER_NAME" player_name in
      (get_player_stats env self id player_name w).1 = Ok (Some df') /\
      column "PLAYER_NAME" df' = Some (replicate (nrows df) player_name) /\
      nrows df' = nrows df /\
      (forall c, c <> "PLAYER_NAME" -> column c df' = column c df) /\
      (has_column "PLAYER_NAME" df = false ->
       columns df' = columns df ++ [("PLAYER_NAME", replicate (nrows df) player_name)])).
Proof.
  destruct (get_player_stats_run env self id player_name w) as (r & lg & Hrun & Hr).
  split; [eauto|]. split.
  - intros e He. rewrite Hrun. simpl. rewrite Hr, He. done.
  - intros df Hdf Hsc df'. rewrite Hrun. simpl. rewrite Hr, Hdf.
    unfold setitem. rewrite Hsc. repeat split.
    + apply setitem_scalar_column.
    + intros c Hc. by apply setitem_scalar_frame.
    + apply setitem_scalar_appends.
Qed.

Lemma get_player_stats_absent_or_first_table_witness :
  (get_player_stats (Demo.env [] true true) Demo.processor
                    (JNum 2544) (JStr "LeBron James") Demo.start).1
  = Ok (Some (mkDataFrame 2
                [("SEASON_ID", [JStr "2003-04"; JStr "2004-05"]);
                 ("PTS", [JNum 1654; JNum 2175]);
                 ("PLAYER_NAME", [JStr "LeBron James"; JStr "LeBron James"])])).
Proof.
  pose proof (get_player_stats_absent_or_first_table
                (Demo.env [] true true) Demo.processor
                (JNum 2544) (JStr "LeBron James") Demo.start) as (_ & _ & H).
  destruct (H Demo.table) as (H1 & _); [reflexivity | reflexivity |].
  exact H1.
Defined.

(** ** The player processor *)

(** C2, as stated, fails: the message of a failed fetch is the source's
    own text and not the text the claim quotes. *)
Lemma process_player_message_text_counterexample :
  (process_player (Demo.env [2544%Z] true true) Demo.processor
                  (JNum 2544) (JStr "LeBron James") Demo.start).1
  = Ok (false, "選手 LeBron James のデータ取得に失敗しました") /\
  (process_player (Demo.env [2544%Z] true true) Demo.processor
                  (JNum 2544) (JStr "LeBron James") Demo.start).1
  <> Ok (false, "failed to fetch data for LeBron James").
Proof. split; [reflexivity | discriminate]. Qed.

(** C2, amended: for every player id and name the processor returns
    exactly one pair: (false, "選手 <name> のデータ取得に失敗しました") when the
    fetch yields no result, (false, "選手 <name> のデータのアップロードに失敗しました")
    when the fetch succeeds and the upload returns false, and
    (true, "選手 <name> のデータを正常に処理しました") when both succeed; and an
    exception raised by either step of the composition is converted to
    (false, "選手 <name> の処理中にエラー発生: <message>") and does not
    propagate. *)
Theorem process_player_outcomes env self id player_name w :
  (exists r w1,
      get_player_stats env self id player_name w = (Ok r, w1) /\
      match r with
      | None =>
          process_player env self id player_name w
          = (Ok (false, fetch_failed env player_name), w1)
      | Some df =>
          exists b w2,
            upload_to_gcs env self df (blob_name_of env id) w1 = (Ok b, w2) /\
            process_player env self id player_name w
            = (Ok (if b then (true, processed env player_name)
                   else (false, upload_failed env player_name)), w2)
      end) /\
  (forall fetch upload e w1,
      fetch id player_name w = (Raise e, w1) ->
      process_player_with env fetch upload id player_name w
      = (Ok (false, processing_error env player_name e), w1)) /\
  (forall fetch upload df e w1 w2,
      fetch id player_name w = (Ok (Some df), w1) ->
      upload df (blob_name_of env id) w1 = (Raise e, w2) ->
      process_player_with env fetch upload id player_name w
      = (Ok (false, processing_error env player_name e), w2)).
Proof.
  split; [|split].
  - destruct (get_player_stats_run env self id player_name w) as (r & lg & Hrun & _).
    exists r, (mkState (trace w ++ [EvProvider id]) lg). split; [done|].
    destruct (process_player_with_run env (get_player_stats env self)
                (upload_to_gcs env self) id player_name w) as (out & w' & Hp & Hcase).
    rewrite Hrun in Hcase. unfold process_player. destruct r as [df|].
    + destruct (upload_to_gcs_run env self df (blob_name_of env id)
                  (mkState (trace w ++ [EvProvider id]) lg)) as (b & w2 & Hup & _).
      exists b, w2. split; [done|]. rewrite Hup in Hcase.
      destruct b; destruct Hcase as [-> ->]; exact Hp.
    + destruct Hcase as [-> ->]. exact Hp.
  - intros fetch upload e w1 Hf.
    destruct (process_player_with_run env fetch upload id player_name w)
      as (out & w' & Hp & Hcase).
    rewrite Hf in Hcase. destruct Hcase as [-> ->]. exact Hp.
  - intros fetch upload df e w1 w2 Hf Hu.
    destruct (process_player_with_run env fetch upload id player_name w)
      as (out & w' & Hp & Hcase).
    rewrite Hf, Hu in Hcase. destruct Hcase as [-> ->]. exact Hp.
Qed.

Lemma process_player_outcomes_witness :
  process_player_with (Demo.env [] true true)
    (fun _ _ => lift (Raise (mkExn "RuntimeError" "boom")))
    (upload_to_gcs (Demo.env [] true true) Demo.processor)
    (JNum 2544) (JStr "LeBron James") Demo.start
  = (Ok (false, "選手 LeBron James の処理中にエラー発生: boom"), Demo.start).
Proof.
  pose proof (process_player_outcomes (Demo.env [] true true) Demo.processor
                (JNum 2544) (JStr "LeBron James") Demo.start) as (_ & H & _).
  apply (H _ _ (mkExn "RuntimeError" "boom") Demo.start). reflexivity.
Defined.

(** C4: when the fetch of a player yields no result, the outcome of that
    player is a failure whose message says that the data could not be
    fetched, and the processing of that player makes no call to the store:
    no bucket or blob handle is taken, no upload is requested and no
    object is written. *)
Theorem fetch_failure_skips_upload env self id player_name w w1 :
  get_player_stats env self id player_name w = (Ok None, w1) ->
  process_player env self id player_name w
  = (Ok (false, fetch_failed env player_name), w1) /\
  fetch_failed env player_name
  = "選手 " +:+ str env player_name +:+ " のデータ取得に失敗しました" /\
  storage_calls (trace w1) = storage_calls (trace w) /\
  upload_calls (trace w1) = upload_calls (trace w) /\
  stored_objects (trace w1) = stored_objects (trace w).
Proof.
  intros Hf.
  destruct (process_player_with_run env (get_player_stats env self)
              (upload_to_gcs env self) id player_name w) as (out & w' & Hp & Hcase).
  rewrite Hf in Hcase. destruct Hcase as [-> ->].
  split; [exact Hp|]. split; [reflexivity|].
  destruct (get_player_stats_run env self id player_name w) as (r & lg & Hrun & _).
  rewrite Hrun in Hf. injection Hf as _ <-. simpl.
  rewrite storage_calls_app, upload_calls_app, stored_objects_app. simpl.
  by rewrite !app_nil_r.
Qed.

Lemma fetch_failure_skips_upload_witness :
  process_player (Demo.env [201939%Z] true true) Demo.processor
                 (JNum 201939) (JStr "Stephen Curry") Demo.start
  = (Ok (false, "選手 Stephen Curry のデータ取得に失敗しました"),
     mkState [EvProvider (JNum 201939)]
             ["選手ID 201939 のデータ取得エラー: Expecting value: line 1 column 1 (char 0)"]).
Proof.
  apply (fetch_failure_skips_upload (Demo.env [201939%Z] true true) Demo.processor
           (JNum 201939) (JStr "Stephen Curry") Demo.start).
  reflexivity.
Defined.

(** ** The storage side effect *)

(** C6, as stated, fails: a player whose fetch succeeds leaves no object
    in the store when the store refuses the upload. *)
Lemma fetched_player_refused_upload_counterexample :
  (get_player_stats (Demo.env [] true false) Demo.processor
                    (JNum 2544) (JStr "LeBron James") Demo.start).1
  = Ok (Some (setitem_scalar Demo.table "PLAYER_NAME" (JStr "LeBron James"))) /\
  (process_player (Demo.env [] true false) Demo.processor
                  (JNum 2544) (JStr "LeBron James") Demo.start).1
  = Ok (false, "選手 LeBron James のデータのアップロードに失敗しました") /\
  stored_objects
    (trace (process_player (Demo.env [] true false) Demo.processor
                           (JNum 2544) (JStr "LeBron James") Demo.start).2)
  = [].
Proof. repeat split. Qed.

(** C6, amended: for every player whose fetch succeeds, the processor
    runs the uploader once; when the upload succeeds it has written
    exactly one object, under the key player_stats/{player_id}_play_stats.csv
    of the processor's bucket, with content type text/csv and with the
    table serialized as a header row plus one row per entry, without index
    column, as its body; when the upload fails nothing is written, and the
    only upload that may have been requested is that same one. *)
Theorem fetched_player_upload env self id player_name w df w1 :
  get_player_stats env self id player_name w = (Ok (Some df), w1) ->
  exists s m w2,
    process_player env self id player_name w = (Ok (s, m), w2) /\
    (if s
     then stored_objects (trace w2)
          = stored_objects (trace w) ++ [object_for env self id df] /\
          upload_calls (trace w2)
          = upload_calls (trace w) ++ [object_for env self id df]
     else stored_objects (trace w2) = stored_objects (trace w) /\
          (upload_calls (trace w2) = upload_calls (trace w) \/
           upload_calls (trace w2)
           = upload_calls (trace w) ++ [object_for env self id df])) /\
    obj_bucket (object_for env self id df) = self_bucket_name self /\
    obj_key (object_for env self id df)
    = "player_stats/" +:+ str env id +:+ "_play_stats.csv" /\
    obj_content_type (object_for env self id df) = "text/csv" /\
    obj_body (object_for env self id df)
    = csv_line (map (fun c => csv_field env (JStr c)) (header df))
      +:+ String.concat ""
            (map (fun i => csv_line (map (csv_field env) (row df i)))
                 (seq 0 (nrows df))).
Proof.
  intros Hf.
  destruct (process_player_with_run env (get_player_stats env self)
              (upload_to_gcs env self) id player_name w) as (out & w' & Hp & Hcase).
  rewrite Hf in Hcase.
  destruct (upload_to_gcs_run env self df (blob_name_of env id) w1)
    as (b & w2 & Hup & Hobj).
  rewrite Hup in Hcase.
  destruct (get_player_stats_run env self id player_name w) as (r & lg & Hrun & _).
  rewrite Hrun in Hf. injection Hf as _ <-. simpl in Hobj.
  rewrite stored_objects_app, upload_calls_app in Hobj. simpl in Hobj.
  rewrite !app_nil_r in Hobj.
  exists b, (snd out), w2.
  assert (out = (b, snd out) /\ w' = w2) as [Hout ->].
  { destruct b; destruct Hcase as [-> ->]; done. }
  split; [by rewrite <- Hout|].
  split; [exact Hobj|]. repeat split.
Qed.

Lemma fetched_player_upload_witness :
  exists m w2,
    process_player (Demo.env [] true true) Demo.processor
                   (JNum 2544) (JStr "LeBron James") Demo.start
    = (Ok (true, m), w2) /\
    stored_objects (trace w2)
    = [mkObject (JStr "your-bucket-name") "player_stats/2544_play_stats.csv"
                (to_csv (csv_field (Demo.env [] true true)) false
                        (setitem_scalar Demo.table "PLAYER_NAME" (JStr "LeBron James")))
                "text/csv"].
Proof.
  destruct (fetched_player_upload (Demo.env [] true true) Demo.processor
              (JNum 2544) (JStr "LeBron James") Demo.start
              (setitem_scalar Demo.table "PLAYER_NAME" (JStr "LeBron James"))
              (mkState [EvProvider (JNum 2544)] []) eq_refl)
    as (s & m & w2 & Hp & Hobj & _).
  assert (s = true) as ->.
  { change (process_player _ _ _ _ _) with
      (Ok (true, processed (Demo.env [] true true) (JStr "LeBron James")),
       mkState ([EvProvider (JNum 2544)] ++
                [EvBucket (JStr "your-bucket-name");
                 EvBlob (JStr "your-bucket-name")
                        (blob_name_of (Demo.env [] true true) (JNum 2544));
                 EvUpload (JStr "your-bucket-name")
                          (blob_name_of (Demo.env [] true true) (JNum 2544))
                          (to_csv (csv_field (Demo.env [] true true)) false
                             (setitem_scalar Demo.table "PLAYER_NAME"
                                (JStr "LeBron James")))
                          "text/csv" true]) []) in Hp.
    congruence. }
  exists m, w2. split; [exact Hp|]. apply Hobj.
Defined.

(** ** The loop over the players *)

Section Handler.

Variable env : Env.

Lemma count_success_app (a b : list Outcome) :
  count_success (a ++ b) = count_success a + count_success b.
Proof. unfold count_success. by rewrite List.filter_app, length_app. Qed.

Lemma count_success_one (o : Outcome) :
  count_success [o] = if success o then 1 else 0.
Proof. unfold count_success. simpl. by destruct (success o). Qed.

(** One turn of the loop on an entry that is an object: its outcome joins
    the results and the loop goes on with the remaining players. *)
Lemma for_each_player_object processor d rest results count w :
  exists s m w1,
    process_player env processor (dict_get d "id" JNull) (dict_get d "name" JNull) w
    = (Ok (s, m), w1) /\
    for_each_player env processor (JObj d :: rest) results count w
    = for_each_player env processor rest
        (results ++ [mkOutcome (dict_get d "id" JNull) (dict_get d "name" JNull) s m])
        (if s then S count else count) w1.
Proof.
  destruct (process_player_returns env processor (dict_get d "id" JNull)
              (dict_get d "name" JNull) w) as (s & m & w1 & Hp).
  exists s, m, w1. split; [exact Hp|].
  simpl. unfold bind, lift. simpl. rewrite Hp. reflexivity.
Qed.

(** An entry that is not an object stops the loop: it has no [get]. *)
Lemma for_each_player_not_object processor v rest results count w :
  is_object v = false ->
  for_each_player env processor (v :: rest) results count w
  = (Raise (AttributeError v "get"), w).
Proof. intros Hv. destruct v; try discriminate; reflexivity. Qed.

(** What the loop returns, when it returns. *)
Lemma for_each_player_inv processor players :
  forall results count w rs c w',
    for_each_player env processor players results count w = (Ok (rs, c), w') ->
    exists outs,
      rs = results ++ outs /\ c = count + count_success outs /\
      Forall2 echoes players outs.
Proof.
  induction players as [|player rest IH]; intros results count w rs c w' Hrun.
  - simpl in Hrun. unfold ret in Hrun. injection Hrun as <- <- _.
    exists []. rewrite app_nil_r. split; [done|]. split; [|constructor].
    unfold count_success. simpl. lia.
  - destruct (is_object player) eqn:Hobj.
    + destruct player; try discriminate.
      destruct (for_each_player_object processor d rest results count w)
        as (s & m & w1 & _ & Hstep).
      rewrite Hstep in Hrun. apply IH in Hrun as (outs & -> & -> & Hall).
      exists (mkOutcome (dict_get d "id" JNull) (dict_get d "name" JNull) s m :: outs).
      split; [by rewrite <- app_assoc|]. split.
      * change (?o :: outs) with ([o] ++ outs).
        rewrite count_success_app, count_success_one. simpl. destruct s; lia.
      * constructor; [|exact Hall]. by exists d.
    + rewrite for_each_player_not_object in Hrun by done. discriminate.
Qed.

(** The loop returns when every entry is an object. *)
Lemma for_each_player_returns processor players :
  forallb is_object players = true ->
  forall results count w,
    exists rs c w',
      for_each_player env processor players results count w = (Ok (rs, c), w').
Proof.
  induction players as [|player rest IH]; intros Hall results count w.
  - simpl. unfold ret. eauto.
  - simpl in Hall. apply andb_true_iff in Hall as [Hobj Hrest].
    destruct player; try discriminate.
    destruct (for_each_player_object processor d rest results count w)
      as (s & m & w1 & _ & ->).
    by apply IH.
Qed.

(** ** The handler *)


(** A body that passes the validation goes on to the processing. *)
Lemma handler_try_validated request body p b players w :
  get_json request = Ok body ->
  validate body = Some (p, b, players) ->
  handler_try env request w
  = (let* processor := NBAStatsProcessor_init env p b in
     let* items := lift (py_iter players) in
     let* acc := for_each_player env processor items [] 0 in
     let* total := lift (py_len players) in
     ret (ReportBody true total (snd acc) (fst acc), 200%Z)) w.
Proof.
  intros Hj Hv. destruct body; try discriminate. unfold validate in Hv.
  destruct (truthy (JObj d)) eqn:Ht; [|discriminate].
  destruct (py_all _) eqn:Hall; [|discriminate].
  injection Hv as <- <- <-.
  unfold handler_try. cbv beta iota delta [bind lift]. rewrite Hj, Ht.
  cbv beta iota delta [negb py_get]. rewrite Hall. reflexivity.
Qed.

(** The answers of the handler to a body that does not pass. *)
Lemma handler_try_rejected request body w :
  get_json request = Ok body ->
  validate body = None ->
  handler_try env request w
  = if negb (truthy body) then (Ok (ErrorBody false body_required, 400%Z), w)
    else if is_object body then (Ok (ErrorBody false fields_required, 400%Z), w)
         else (Raise (AttributeError body "get"), w).
Proof.
  intros Hj Hv. unfold handler_try. cbv beta iota delta [bind lift]. rewrite Hj.
  destruct (truthy body) eqn:Ht; cbv beta iota delta [negb]; [|reflexivity].
  destruct body; try reflexivity.
  unfold validate in Hv. rewrite Ht in Hv.
  destruct (py_all _) eqn:Hall; [discriminate|].
  cbv beta iota delta [py_get is_object]. rewrite Hall. reflexivity.
Qed.

End Handler.

Section Responses.

Variable env : Env.


(** A truthy value that can be iterated and whose elements are all
    objects is a list. *)
Lemma players_list players items outs :
  truthy players = true ->
  py_iter players = Ok items ->
  Forall2 echoes items outs ->
  players = JArr items.
Proof.
  intros Ht Hi Hall. destruct players; simpl in Hi; try discriminate.
  - injection Hi as <-. destruct s as [|a s]; [discriminate|].
    simpl in Hall. inversion Hall as [|? ? ? ? (d & Hd & _)]. discriminate.
  - by injection Hi as ->.
  - injection Hi as <-. simpl in Ht.
    destruct (map_to_list d) as [|[k v] kvs] eqn:Hd.
    + apply map_to_list_empty_iff in Hd. subst d.
      rewrite map_size_empty in Ht. discriminate.
    + simpl in Hall. inversion Hall as [|? ? ? ? (d' & Hd' & _)]. discriminate.
Qed.

(** What stands behind a report: the request passed the validation, its
    players are a list, the client was made, and the results are the
    outcomes of the players, one each, in order. *)
Lemma report_inv request w s t c rs st w' :
  process_nba_stats env request w = (Ok (ReportBody s t c rs, st), w') ->
  exists body p b l,
    get_json request = Ok body /\
    validate body = Some (p, b, JArr l) /\
    storage_Client env (trace w) p = Ok tt /\
    s = true /\ st = 200%Z /\ t = length l /\ c = count_success rs /\
    Forall2 echoes l rs.
Proof.
  unfold process_nba_stats, try_except.
  destruct (handler_try env request w) as [[resp|e] w1] eqn:Htry;
    [|run; discriminate].
  intros Hresp. injection Hresp as -> ->.
  destruct (get_json request) as [body|e] eqn:Hj.
  2:{ unfold handler_try, bind, lift in Htry. rewrite Hj in Htry. discriminate. }
  destruct (validate body) as [[[p b] players]|] eqn:Hv.
  2:{ rewrite (handler_try_rejected env request body w Hj Hv) in Htry.
      destruct (negb (truthy body)); [discriminate|].
      destruct (is_object body); discriminate. }
  rewrite (handler_try_validated env request body p b players w Hj Hv) in Htry.
  assert (truthy players = true) as Hpl.
  { unfold validate in Hv. destruct body; try discriminate.
    destruct (truthy (JObj d)); [|discriminate].
    destruct (py_all _) eqn:Hall; [|discriminate].
    injection Hv as _ _ <-. simpl in Hall.
    repeat (apply andb_true_iff in Hall as [? Hall]). done. }
  unfold NBAStatsProcessor_init in Htry. run. run_in Htry.
  destruct (storage_Client env (trace w) p) as [[]|e] eqn:Hc; [|discriminate].
  destruct (py_iter players) as [items|e] eqn:Hi; [|discriminate].
  destruct (for_each_player env _ items [] 0 _) as [[[rs' c']|e] w2] eqn:Hloop;
    [|discriminate].
  apply for_each_player_inv in Hloop as (outs & Hrs & Hcnt & Hall).
  simpl in Hrs, Hcnt. subst rs' c'.
  pose proof (players_list players items outs Hpl Hi Hall) as ->.
  simpl in Htry. injection Htry as <- <- <- <- <- _.
  exists body, p, b, items. done.
Qed.

(** A validated request whose players are a list of objects gets its
    report once the storage client is made. *)
Lemma valid_request_processed request body p b l w :
  get_json request = Ok body ->
  validate body = Some (p, b, JArr l) ->
  forallb is_object l = true ->
  storage_Client env (trace w) p = Ok tt ->
  exists c rs w',
    process_nba_stats env request w
    = (Ok (ReportBody true (length l) c rs, 200%Z), w').
Proof.
  intros Hj Hv Hobj Hc. unfold process_nba_stats, try_except.
  rewrite (handler_try_validated env request body p b (JArr l) w Hj Hv).
  unfold NBAStatsProcessor_init. run. rewrite Hc.
  destruct (for_each_player_returns env (mkProcessor p b p) l Hobj [] 0
              (mkState (trace w ++ [EvClient p]) (log w))) as (rs & c & w' & ->).
  simpl. eauto.
Qed.

(** Whatever the [try] block of the handler returns has one of the
    shapes of the interface. *)
Lemma handler_try_structured request w resp w' :
  handler_try env request w = (Ok resp, w') -> structured resp = true.
Proof.
  intros Htry.
  destruct (get_json request) as [body|e] eqn:Hj.
  2:{ unfold handler_try, bind, lift in Htry. rewrite Hj in Htry. discriminate. }
  destruct (validate body) as [[[p b] players]|] eqn:Hv.
  - rewrite (handler_try_validated env request body p b players w Hj Hv) in Htry.
    unfold NBAStatsProcessor_init in Htry. run_in Htry.
    destruct (storage_Client env (trace w) p) as [[]|e]; [|discriminate].
    destruct (py_iter players) as [items|e]; [|discriminate].
    destruct (for_each_player env _ items [] 0 _) as [[[rs' c']|e] w2];
      [|discriminate].
    destruct (py_len players) as [n|e]; [|discriminate].
    by injection Htry as <- _.
  - rewrite (handler_try_rejected env request body w Hj Hv) in Htry.
    destruct (negb (truthy body)); [by injection Htry as <- _|].
    destruct (is_object body); [by injection Htry as <- _|discriminate].
Qed.

(** A missing field reads as a falsy value. *)
Lemma absent_or_falsy_get (d : gmap string json) k dflt :
  truthy dflt = false ->
  absent_or_falsy (d !! k) = negb (truthy (dict_get d k dflt)).
Proof.
  intros Hd. unfold dict_get. destruct (d !! k); simpl; [done|by rewrite Hd].
Qed.

End Responses.

(** ** The aggregate report *)

(** C1: for every request that passes the validation, the report that the
    handler returns has as many results as the request has players,
    [total_processed] is that number, and [success_count] is the number
    of results whose [success] is true. *)
Theorem aggregate_report_invariant
        env request body p b players w s t c rs st w' :
  get_json request = Ok body ->
  validate body = Some (p, b, players) ->
  process_nba_stats env request w = (Ok (ReportBody s t c rs, st), w') ->
  exists l,
    players = JArr l /\
    length rs = t /\ t = length l /\
    c = count_success rs.
Proof.
  intros Hj Hv Hrun.
  apply report_inv in Hrun
    as (body' & p' & b' & l & Hj' & Hv' & _ & _ & _ & Ht & Hc & Hall).
  rewrite Hj in Hj'. injection Hj' as <-. rewrite Hv in Hv'.
  injection Hv' as _ _ ->.
  exists l. split; [done|]. split; [|done].
  rewrite Ht. symmetry. by eapply Forall2_length.
Qed.

Lemma aggregate_report_invariant_witness :
  exists l,
    JArr [Demo.lebron; Demo.curry] = JArr l /\
    length
      [mkOutcome (JNum 2544) (JStr "LeBron James") true
                 "選手 LeBron James のデータを正常に処理しました";
       mkOutcome (JNum 201939) (JStr "Stephen Curry") false
                 "選手 Stephen Curry のデータ取得に失敗しました"] = 2 /\
    2 = length l /\
    1 = count_success
          [mkOutcome (JNum 2544) (JStr "LeBron James") true
                     "選手 LeBron James のデータを正常に処理しました";
           mkOutcome (JNum 201939) (JStr "Stephen Curry") false
                     "選手 Stephen Curry のデータ取得に失敗しました"].
Proof.
  eapply (aggregate_report_invariant (Demo.env [201939%Z] true true)
            (Demo.request_of Demo.test_data) Demo.test_data
            (JStr "your-project-id") (JStr "your-bucket-name")
            (JArr [Demo.lebron; Demo.curry]) Demo.start true 2 1).
  - reflexivity.
  - vm_compute. reflexivity.
  - vm_compute. reflexivity.
Defined.

(** C5: for every valid request, the results hold exactly one outcome per
    input player, failures included, in the order of the input players,
    and the [player_id] and [name] of each outcome are the [id] and the
    [name] of the player at the same position. *)
Theorem results_one_per_player_in_order
        env request body p b players w s t c rs st w' :
  get_json request = Ok body ->
  validate body = Some (p, b, players) ->
  process_nba_stats env request w = (Ok (ReportBody s t c rs, st), w') ->
  exists l,
    players = JArr l /\
    length rs = length l /\
    Forall2 echoes l rs /\
    (forall i player, l !! i = Some player ->
       exists d o, player = JObj d /\ rs !! i = Some o /\
                   player_id o = dict_get d "id" JNull /\
                   name o = dict_get d "name" JNull).
Proof.
  intros Hj Hv Hrun.
  apply report_inv in Hrun
    as (body' & p' & b' & l & Hj' & Hv' & _ & _ & _ & Ht & Hc & Hall).
  rewrite Hj in Hj'. injection Hj' as <-. rewrite Hv in Hv'.
  injection Hv' as _ _ ->.
  exists l. split; [done|]. split; [symmetry; by eapply Forall2_length|].
  split; [done|].
  intros i player Hi.
  destruct (Forall2_lookup_l _ _ _ _ _ Hall Hi) as (o & Ho & d & -> & Hid & Hname).
  by exists d, o.
Qed.

Lemma results_one_per_player_in_order_witness :
  exists l,
    JArr [Demo.lebron; Demo.curry] = JArr l /\
    length
      [mkOutcome (JNum 2544) (JStr "LeBron James") true
                 "選手 LeBron James のデータを正常に処理しました";
       mkOutcome (JNum 201939) (JStr "Stephen Curry") false
                 "選手 Stephen Curry のデータ取得に失敗しました"] = length l /\
    Forall2 echoes l
      [mkOutcome (JNum 2544) (JStr "LeBron James") true
                 "選手 LeBron James のデータを正常に処理しました";
       mkOutcome (JNum 201939) (JStr "Stephen Curry") false
                 "選手 Stephen Curry のデータ取得に失敗しました"].
Proof.
  destruct (results_one_per_player_in_order (Demo.env [201939%Z] true true)
              (Demo.request_of Demo.test_data) Demo.test_data
              (JStr "your-project-id") (JStr "your-bucket-name")
              (JArr [Demo.lebron; Demo.curry]) Demo.start true 2 1
              [mkOutcome (JNum 2544) (JStr "LeBron James") true
                         "選手 LeBron James のデータを正常に処理しました";
               mkOutcome (JNum 201939) (JStr "Stephen Curry") false
                         "選手 Stephen Curry のデータ取得に失敗しました"]
              200%Z
              (mkState
                 [EvClient (JStr "your-project-id"); EvProvider (JNum 2544);
                  EvBucket (JStr "your-bucket-name");
                  EvBlob (JStr "your-bucket-name") "player_stats/2544_play_stats.csv";
                  EvUpload (JStr "your-bucket-name") "player_stats/2544_play_stats.csv"
                    (to_csv (py_str (fun _ => "[...]")) false
                       (setitem_scalar Demo.table "PLAYER_NAME" (JStr "LeBron James")))
                    "text/csv" true;
                  EvProvider (JNum 201939)]
                 ["選手ID 201939 のデータ取得エラー: Expecting value: line 1 column 1 (char 0)"]))
    as (l & Hl & Hlen & Hall & _).
  - reflexivity.
  - vm_compute. reflexivity.
  - vm_compute. reflexivity.
  - exists l. auto.
Defined.

(** C9: the request-level [success] of a 200 response is true whatever
    the players' outcomes are: a response with status 200 is a report
    whose [success] field is true, also when [success_count] is 0. *)
Theorem ok_response_success_true env request w body w' :
  process_nba_stats env request w = (Ok (body, 200%Z), w') ->
  exists t c rs,
    body = ReportBody true t c rs /\
    c = count_success rs /\
    0 <= c <= t.
Proof.
  intros Hrun.
  destruct (process_nba_stats env request w) as [[[resp st]|e] w1] eqn:Hp;
    [|discriminate].
  injection Hrun as -> -> ->.
  destruct body as [s err|s t c rs].
  - exfalso. unfold process_nba_stats, try_except in Hp.
    destruct (handler_try env request w) as [[resp|e] w1] eqn:Htry.
    + injection Hp as -> _.
      destruct (get_json request) as [body|e] eqn:Hj.
      2:{ unfold handler_try, bind, lift in Htry. rewrite Hj in Htry. discriminate. }
      destruct (validate body) as [[[p b] players]|] eqn:Hv.
      * rewrite (handler_try_validated env request body p b players w Hj Hv) in Htry.
        unfold NBAStatsProcessor_init in Htry. run_in Htry.
        destruct (storage_Client env (trace w) p) as [[]|e]; [|discriminate].
        destruct (py_iter players) as [items|e]; [|discriminate].
        destruct (for_each_player env _ items [] 0 _) as [[[rs' c']|e] w2];
          [|discriminate].
        destruct (py_len players) as [n|e]; discriminate.
      * rewrite (handler_try_rejected env request body w Hj Hv) in Htry.
        destruct (negb (truthy body)); [discriminate|].
        destruct (is_object body); discriminate.
    + run_in Hp. discriminate.
  - apply report_inv in Hp
      as (body' & p' & b' & l & _ & _ & _ & -> & _ & -> & -> & Hall).
    exists (length l), (count_success rs), rs. split; [done|]. split; [done|].
    split; [lia|].
    rewrite (Forall2_length _ _ _ Hall). unfold count_success.
    apply List.filter_length_le.
Qed.

Lemma ok_response_success_true_witness :
  exists t c rs,
    ReportBody true 2 0
      [mkOutcome JNull JNull false "選手 None のデータ取得に失敗しました";
       mkOutcome (JNum 2544) (JStr "LeBron James") false
                 "選手 LeBron James のデータのアップロードに失敗しました"]
    = ReportBody true t c rs /\
    c = count_success rs /\ 0 <= c <= t.
Proof.
  eapply (ok_response_success_true (Demo.env [] true false)
            (Demo.request_of (Demo.body_of (JArr [Demo.anonymous; Demo.lebron])))
            Demo.start).
  vm_compute. reflexivity.
Defined.

(** C10: a player entry that is an object without [id] or without [name]
    does not abort the request.  In the loop, the turn of an entry that is
    an object never raises: it adds one outcome, whose [player_id] and
    [name] are what the entry has (None for a missing field), and goes on
    with the remaining players.  For the request: when it passed the
    validation, its players are objects and the storage client is made,
    the handler returns the report with one such outcome per player. *)
Theorem missing_fields_do_not_abort env request body p b l w :
  (forall processor d rest results count w0,
      exists sc m w1,
        for_each_player env processor (JObj d :: rest) results count w0
        = for_each_player env processor rest
            (results ++ [mkOutcome (dict_get d "id" JNull)
                                   (dict_get d "name" JNull) sc m])
            (if sc then S count else count) w1) /\
  (get_json request = Ok body ->
   validate body = Some (p, b, JArr l) ->
   forallb is_object l = true ->
   storage_Client env (trace w) p = Ok tt ->
   exists c rs w',
     process_nba_stats env request w
     = (Ok (ReportBody true (length l) c rs, 200%Z), w') /\
     length rs = length l /\
     forall i d, l !! i = Some (JObj d) ->
       exists o, rs !! i = Some o /\
                 player_id o = dict_get d "id" JNull /\
                 name o = dict_get d "name" JNull /\
                 (d !! "id" = None -> player_id o = JNull) /\
                 (d !! "name" = None -> name o = JNull)).
Proof.
  split.
  - intros processor d rest results count w0.
    destruct (for_each_player_object env processor d rest results count w0)
      as (sc & m & w1 & _ & Hstep).
    by exists sc, m, w1.
  - intros Hj Hv Hobj Hc.
    destruct (valid_request_processed env request body p b l w Hj Hv Hobj Hc)
      as (c & rs & w' & Hrun).
    exists c, rs, w'. split; [exact Hrun|].
    apply report_inv in Hrun
      as (body' & p' & b' & l' & Hj' & Hv' & _ & _ & _ & _ & _ & Hall).
    rewrite Hj in Hj'. injection Hj' as <-. rewrite Hv in Hv'.
    injection Hv' as _ _ <-.
    split; [symmetry; by eapply Forall2_length|].
    intros i d Hi.
    destruct (Forall2_lookup_l _ _ _ _ _ Hall Hi) as (o & Ho & d' & Hd & Hid & Hname).
    injection Hd as <-.
    exists o. split; [done|]. split; [done|]. split; [done|].
    unfold dict_get in Hid, Hname.
    split; intros Hnone; [rewrite Hnone in Hid | rewrite Hnone in Hname]; done.
Qed.

Lemma missing_fields_do_not_abort_witness :
  exists c rs w',
    process_nba_stats (Demo.env [] true true)
      (Demo.request_of (Demo.body_of (JArr [Demo.anonymous; Demo.lebron])))
      Demo.start
    = (Ok (ReportBody true 2 c rs, 200%Z), w') /\
    length rs = 2 /\
    exists o, rs !! 0 = Some o /\ player_id o = JNull /\ name o = JNull.
Proof.
  destruct (missing_fields_do_not_abort (Demo.env [] true true)
              (Demo.request_of (Demo.body_of (JArr [Demo.anonymous; Demo.lebron])))
              (Demo.body_of (JArr [Demo.anonymous; Demo.lebron]))
              (JStr "your-project-id") (JStr "your-bucket-name")
              [Demo.anonymous; Demo.lebron] Demo.start) as [_ H].
  destruct H as (c & rs & w' & Hrun & Hlen & Hecho).
  - reflexivity.
  - vm_compute. reflexivity.
  - reflexivity.
  - reflexivity.
  - exists c, rs, w'. split; [exact Hrun|]. split; [exact Hlen|].
    destruct (Hecho 0 (<["team" := JStr "LAL"]> ∅) eq_refl)
      as (o & Ho & _ & _ & Hid & Hname).
    exists o. split; [exact Ho|].
    split; [apply Hid | apply Hname]; vm_compute; reflexivity.
Defined.

(** ** Rejected requests and internal failures *)

(** C3, as stated, fails: a body that is a non-empty JSON list has no
    [project_id], [bucket_name] or [players], and the handler answers it
    with status 500, not 400. *)
Lemma non_object_body_counterexample :
  absent_or_falsy (field (JArr [JNum 1]) "project_id") = true /\
  absent_or_falsy (field (JArr [JNum 1]) "bucket_name") = true /\
  absent_or_falsy (field (JArr [JNum 1]) "players") = true /\
  process_nba_stats (Demo.env [] true true) (Demo.request_of (JArr [JNum 1]))
                    Demo.start
  = (Ok (ErrorBody false "'list' object has no attribute 'get'", 500%Z),
     mkState [] ["予期せぬエラーが発生しました: 'list' object has no attribute 'get'"]) /\
  (process_nba_stats (Demo.env [] true true) (Demo.request_of (JArr [JNum 1]))
                     Demo.start).1
  <> Ok (ErrorBody false "project_id, bucket_name, players が必要です", 400%Z).
Proof. repeat split. discriminate. Qed.

(** C3, amended: for every request whose body is empty or missing (a
    falsy value), or whose body is a JSON object in which any of
    project_id, bucket_name, players is absent or falsy (an empty players
    list is falsy), the handler returns status 400 with a body
    { success: false, error: string }, and it does nothing else: no
    player is processed, no call leaves the process, no object is
    written. *)
Theorem invalid_request_rejected env request body w :
  get_json request = Ok body ->
  truthy body = false \/
  (exists d, body = JObj d /\
             (absent_or_falsy (field body "project_id")
              || absent_or_falsy (field body "bucket_name")
              || absent_or_falsy (field body "players")) = true) ->
  exists err,
    process_nba_stats env request w = (Ok (ErrorBody false err, 400%Z), w) /\
    (err = body_required \/ err = fields_required).
Proof.
  intros Hj Hbad.
  assert (validate body = None) as Hv.
  { destruct Hbad as [Hf | (d & -> & Hf)].
    - unfold validate. destruct body; try done. by rewrite Hf.
    - unfold validate. destruct (truthy (JObj d)); [|done].
      unfold field in Hf.
      rewrite (absent_or_falsy_get d "project_id" JNull),
              (absent_or_falsy_get d "bucket_name" JNull),
              (absent_or_falsy_get d "players" (JArr [])) in Hf by done.
      unfold py_all. cbn [forallb andb].
      destruct (truthy (dict_get d "project_id" JNull)),
               (truthy (dict_get d "bucket_name" JNull)),
               (truthy (dict_get d "players" (JArr []))); done. }
  unfold process_nba_stats, try_except.
  rewrite (handler_try_rejected env request body w Hj Hv).
  destruct Hbad as [Hf | (d & -> & Hf)].
  - rewrite Hf. simpl. exists body_required. auto.
  - destruct (truthy (JObj d)); simpl.
    + exists fields_required. auto.
    + exists body_required. auto.
Qed.

Lemma invalid_request_rejected_witness :
  exists err,
    process_nba_stats (Demo.env [] true true)
      (Demo.request_of (Demo.body_of (JArr []))) Demo.start
    = (Ok (ErrorBody false err, 400%Z), Demo.start) /\
    (err = body_required \/ err = fields_required).
Proof.
  apply (invalid_request_rejected (Demo.env [] true true)
           (Demo.request_of (Demo.body_of (JArr [])))
           (Demo.body_of (JArr [])) Demo.start).
  - reflexivity.
  - right. eexists. split; [reflexivity|]. vm_compute. reflexivity.
Defined.

(** C7: the handler never raises and always returns a response of the
    interface; an exception that escapes its [try] block, such as a
    failure to make the storage client, is turned into the response
    { success: false, error: str(e) } with status 500. *)
Theorem handler_never_raises env request w :
  (exists resp w',
      process_nba_stats env request w = (Ok resp, w') /\
      structured resp = true) /\
  (forall e w1,
      handler_try env request w = (Raise e, w1) ->
      process_nba_stats env request w
      = (Ok (ErrorBody false (exn_str e), 500%Z),
         mkState (trace w1)
                 (log w1 ++ ["予期せぬエラーが発生しました: " +:+ format_exc env e]))) /\
  (forall body p b players e,
      get_json request = Ok body ->
      validate body = Some (p, b, players) ->
      storage_Client env (trace w) p = Raise e ->
      (process_nba_stats env request w).1
      = Ok (ErrorBody false (exn_str e), 500%Z)).
Proof.
  split; [|split].
  - unfold process_nba_stats, try_except.
    destruct (handler_try env request w) as [[resp|e] w1] eqn:Htry.
    + exists resp, w1. split; [done|]. by eapply handler_try_structured.
    + run. eauto.
  - intros e w1 Htry. unfold process_nba_stats, try_except. rewrite Htry.
    reflexivity.
  - intros body p b players e Hj Hv Hc.
    unfold process_nba_stats, try_except.
    rewrite (handler_try_validated env request body p b players w Hj Hv).
    unfold NBAStatsProcessor_init. run. rewrite Hc. reflexivity.
Qed.

Lemma handler_never_raises_witness :
  (process_nba_stats (Demo.env [] false true) (Demo.request_of Demo.test_data)
                     Demo.start).1
  = Ok (ErrorBody false "no credentials", 500%Z).
Proof.
  pose proof (handler_never_raises (Demo.env [] false true)
                (Demo.request_of Demo.test_data) Demo.start) as (_ & _ & H).
  apply (H Demo.test_data (JStr "your-project-id") (JStr "your-bucket-name")
           (JArr [Demo.lebron; Demo.curry])
           (mkExn "DefaultCredentialsError" "no credentials")).
  - reflexivity.
  - vm_compute. reflexivity.
  - reflexivity.
Defined.

(** * Further properties of the code *)

(** ** Calls and log lines of the methods *)

Lemma provider_calls_app t1 t2 :
  provider_calls (t1 ++ t2) = provider_calls t1 ++ provider_calls t2.
Proof. apply omap_app. Qed.

Lemma client_calls_app t1 t2 :
  client_calls (t1 ++ t2) = client_calls t1 ++ client_calls t2.
Proof. apply omap_app. Qed.

Lemma storage_calls_only evs :
  forallb is_storage_call evs = true ->
  provider_calls evs = [] /\ client_calls evs = [].
Proof.
  induction evs as [|ev evs IH]; [done|]. simpl.
  intros [Hev Hevs]%andb_true_iff. destruct (IH Hevs) as [IHp IHc].
  unfold provider_calls, client_calls in *. simpl.
  destruct ev; try discriminate; by rewrite ?IHp, ?IHc.
Qed.

Section MethodEffects.

Variable env : Env.

(** The fetch, as a function of what the provider answers. *)
Lemma get_player_stats_eq self id player_name w :
  get_player_stats env self id player_name w
  = let failed e :=
        (Ok None,
         mkState (trace w ++ [EvProvider id])
                 (log w ++ ["選手ID " +:+ str env id +:+ " のデータ取得エラー: "
                            +:+ exn_str e])) in
    match provider_table env (trace w) id with
    | Raise e => failed e
    | Ok df =>
        match setitem env df "PLAYER_NAME" player_name with
        | Ok df' => (Ok (Some df'), mkState (trace w ++ [EvProvider id]) (log w))
        | Raise e => failed e
        end
    end.
Proof.
  unfold get_player_stats, provider_table. run.
  destruct (PlayerCareerStats env (trace w) id) as [career|e]; simpl; [|done].
  destruct (get_data_frames career) as [frames|e]; simpl; [|done].
  destruct (py_index0 frames) as [df|e]; simpl; [|done].
  by destruct (setitem env df "PLAYER_NAME" player_name).
Qed.

(** The upload, as a function of what the store answers. *)
Lemma upload_to_gcs_eq self df k w :
  upload_to_gcs env self df k w
  = let bk := self_bucket_name self in
    let csv := to_csv (csv_field env) false df in
    let failed evs e :=
        (Ok false,
         mkState (trace w ++ evs)
                 (log w ++ ["GCSアップロードエラー: " +:+ exn_str e])) in
    match Client_bucket env (trace w) bk with
    | Raise e => failed [EvBucket bk] e
    | Ok _ =>
        match Bucket_blob env (trace w ++ [EvBucket bk]) bk k with
        | Raise e => failed [EvBucket bk; EvBlob bk k] e
        | Ok _ =>
            match Blob_upload_from_string
                    env (trace w ++ [EvBucket bk; EvBlob bk k]) bk k csv "text/csv" with
            | Raise e =>
                failed [EvBucket bk; EvBlob bk k; EvUpload bk k csv "text/csv" false] e
            | Ok _ =>
                (Ok true,
                 mkState (trace w ++ [EvBucket bk; EvBlob bk k;
                                      EvUpload bk k csv "text/csv" true])
                         (log w))
            end
        end
    end.
Proof.
  unfold upload_to_gcs. run.
  destruct (Client_bucket env (trace w) (self_bucket_name self)) as [[]|e];
    simpl; [|done].
  destruct (Bucket_blob env _ (self_bucket_name self) k) as [[]|e]; simpl;
    rewrite <- ?app_assoc; simpl; [|done].
  destruct (Blob_upload_from_string env _ _ _ _ _) as [[]|e]; simpl;
    rewrite <- ?app_assoc; simpl; done.
Qed.



(** One player's processing, by the calls it adds to the trace. *)
Lemma process_player_cases self id player_name w :
  exists s m w' evs,
    process_player env self id player_name w = (Ok (s, m), w') /\
    trace w' = trace w ++ EvProvider id :: evs /\
    forallb is_storage_call evs = true /\
    length (upload_calls evs) <= 1 /\
    if s
    then (exists data,
            stored_objects evs
            = [mkObject (self_bucket_name self) (blob_name_of env id) data "text/csv"]) /\
         log w' = log w
    else stored_objects evs = [] /\ length (log w') = S (length (log w)).
Proof.
  destruct (process_player_with_run env (get_player_stats env self)
              (upload_to_gcs env self) id player_name w) as ([s m] & w' & Hp & Hcase).
  unfold process_player. rewrite Hp. clear Hp.
  rewrite get_player_stats_eq in Hcase. cbv zeta in Hcase.
  assert (forall e,
             (s, m) = (false, fetch_failed env player_name) /\
             w' = mkState (trace w ++ [EvProvider id])
                          (log w ++ ["選手ID " +:+ str env id
                                     +:+ " のデータ取得エラー: " +:+ exn_str e]) ->
             exists s0 m0 w0 evs,
               (Ok (s, m), w') = (Ok (s0, m0), w0) /\
               trace w0 = trace w ++ EvProvider id :: evs /\
               forallb is_storage_call evs = true /\
               length (upload_calls evs) <= 1 /\
               if s0
               then (exists data,
                       stored_objects evs
                       = [mkObject (self_bucket_name self) (blob_name_of env id)
                                   data "text/csv"]) /\
                    log w0 = log w
               else stored_objects evs = [] /\
                    length (log w0) = S (length (log w))) as Hfailed.
  { intros e [Ho ->]. injection Ho as -> ->.
    eexists false, _, _, []. split; [reflexivity|]. simpl.
    rewrite length_app. simpl. repeat split; simpl; lia. }
  destruct (provider_table env (trace w) id) as [df|e]; [|by apply (Hfailed e)].
  destruct (setitem env df "PLAYER_NAME" player_name) as [df'|e];
    [|by apply (Hfailed e)].
  clear Hfailed. rewrite upload_to_gcs_eq in Hcase. cbv zeta in Hcase.
  simpl trace in Hcase. simpl log in Hcase.
  destruct (Client_bucket env _ (self_bucket_name self)) as [[]|e].
  2:{ destruct Hcase as [Ho ->]. injection Ho as -> ->.
      eexists false, _, _, _. split; [reflexivity|]. simpl.
      rewrite <- app_assoc, length_app. simpl. repeat split; simpl; lia. }
  destruct (Bucket_blob env _ (self_bucket_name self) _) as [[]|e].
  2:{ destruct Hcase as [Ho ->]. injection Ho as -> ->.
      eexists false, _, _, _. split; [reflexivity|]. simpl.
      rewrite <- app_assoc, length_app. simpl. repeat split; simpl; lia. }
  destruct (Blob_upload_from_string env _ _ _ _ _) as [[]|e].
  - destruct Hcase as [Ho ->]. injection Ho as -> ->.
    eexists true, _, _, _. split; [reflexivity|]. simpl.
    rewrite <- app_assoc. simpl. repeat split; simpl; [lia|eauto].
  - destruct Hcase as [Ho ->]. injection Ho as -> ->.
    eexists false, _, _, _. split; [reflexivity|]. simpl.
    rewrite <- app_assoc, length_app. simpl. repeat split; simpl; lia.
Qed.

(** One player's processing: the provider is asked first and exactly
    once, the storage client is not made anew, and at most one upload is
    requested.  The outcome is a success exactly when one object was
    written, under the player's key in the processor's bucket and with
    content type text/csv, and then nothing is logged; a failure writes
    nothing and logs exactly one line. *)
Theorem process_player_effect self id player_name w :
  exists s m w',
    process_player env self id player_name w = (Ok (s, m), w') /\
    (exists evs, trace w' = trace w ++ EvProvider id :: evs /\
                 forallb is_storage_call evs = true) /\
    provider_calls (trace w') = provider_calls (trace w) ++ [id] /\
    client_calls (trace w') = client_calls (trace w) /\
    length (upload_calls (trace w')) <= S (length (upload_calls (trace w))) /\
    if s
    then (exists data,
            stored_objects (trace w')
            = stored_objects (trace w)
              ++ [mkObject (self_bucket_name self) (blob_name_of env id)
                           data "text/csv"]) /\
         log w' = log w
    else stored_objects (trace w') = stored_objects (trace w) /\
         length (log w') = S (length (log w)).
Proof.
  destruct (process_player_cases self id player_name w)
    as (s & m & w' & evs & Hp & Ht & Hst & Hup & Hs).
  exists s, m, w'. split; [exact Hp|]. split; [by exists evs|].
  destruct (storage_calls_only evs Hst) as [Hp0 Hc0].
  rewrite Ht. change (EvProvider id :: evs) with ([EvProvider id] ++ evs).
  rewrite !provider_calls_app, !client_calls_app, !upload_calls_app,
    !stored_objects_app, Hp0, Hc0. simpl. rewrite !app_nil_r, !length_app.
  split; [done|]. split; [done|]. split; [lia|].
  destruct s.
  - destruct Hs as [(data & ->) Hl]. split; [by exists data|done].
  - destruct Hs as [-> Hl]. by rewrite app_nil_r.
Qed.

End MethodEffects.

(** ** The key of a player's object *)

Lemma string_length_app (s1 s2 : string) :
  String.length (s1 +:+ s2) = String.length s1 + String.length s2.
Proof. induction s1 as [|a s1 IH]; simpl; [done|]. by rewrite IH. Qed.

Lemma string_app_inj_r (s1 s2 t : string) : s1 +:+ t = s2 +:+ t -> s1 = s2.
Proof.
  revert s2. induction s1 as [|a s1 IH]; intros [|b s2] H; [done| | |].
  - apply (f_equal String.length) in H.
    rewrite !string_length_app in H. simpl in H. lia.
  - apply (f_equal String.length) in H.
    rewrite !string_length_app in H. simpl in H. lia.
  - change (String a (s1 +:+ t) = String b (s2 +:+ t)) in H.
    injection H as -> H. f_equal. by apply IH.
Qed.

(** Two players with different integer ids get different keys, so that
    the object of one never replaces the object of the other; and the key
    depends on the id alone, so that a player processed twice is written
    to the same key. *)
Theorem blob_name_of_inj env (a b : Z) :
  blob_name_of env (JNum a) = blob_name_of env (JNum b) <-> a = b.
Proof.
  split; [|by intros ->].
  unfold blob_name_of, str. simpl. intros H.
  apply (inj (String.app "player_stats/")) in H.
  apply string_app_inj_r in H. by apply (inj pretty) in H.
Qed.

(** ** The loop, as a whole *)

Section Loop.

Variable env : Env.

(** The loop over entries that are all objects returns, and whatever
    follows them is then looped over from where it stopped. *)
Lemma for_each_player_prefix processor l1 :
  forallb is_object l1 = true ->
  forall results count w,
    exists rs c w1,
      for_each_player env processor l1 results count w = (Ok (rs, c), w1) /\
      forall l2,
        for_each_player env processor (l1 ++ l2) results count w
        = for_each_player env processor l2 rs c w1.
Proof.
  induction l1 as [|player l1 IH]; intros Hall results count w.
  - exists results, count, w. split; [reflexivity|]. reflexivity.
  - simpl in Hall. apply andb_true_iff in Hall as [Hobj Hall].
    destruct player; try discriminate.
    destruct (for_each_player_object env processor d l1 results count w)
      as (s & m & w1 & Hp & Hstep).
    destruct (IH Hall (results ++ [mkOutcome (dict_get d "id" JNull)
                                             (dict_get d "name" JNull) s m])
                 (if s then S count else count) w1) as (rs & c & w2 & Hrun & Hrest).
    exists rs, c, w2. split; [by rewrite Hstep|].
    intros l2. change ((JObj d :: l1) ++ l2) with (JObj d :: (l1 ++ l2)).
    destruct (for_each_player_object env processor d (l1 ++ l2) results count w)
      as (s' & m' & w1' & Hp' & Hstep').
    rewrite Hp in Hp'. injection Hp' as <- <- <-.
    by rewrite Hstep', Hrest.
Qed.

(** The loop over a list in two parts is the loop over the first part
    followed by the loop over the second, which starts from the results,
    the count and the state the first one left; when the first part
    raises, the second is not run. *)
Theorem for_each_player_app processor l1 l2 :
  forall results count w,
    for_each_player env processor (l1 ++ l2) results count w
    = (let* acc := for_each_player env processor l1 results count in
       for_each_player env processor l2 (fst acc) (snd acc)) w.
Proof.
  induction l1 as [|player l1 IH]; intros results count w.
  - reflexivity.
  - destruct (is_object player) eqn:Hobj.
    + destruct player; try discriminate.
      destruct (for_each_player_object env processor d (l1 ++ l2) results count w)
        as (s & m & w1 & Hp & Hstep).
      destruct (for_each_player_object env processor d l1 results count w)
        as (s' & m' & w1' & Hp' & Hstep').
      rewrite Hp in Hp'. injection Hp' as <- <- <-.
      change ((JObj d :: l1) ++ l2) with (JObj d :: (l1 ++ l2)).
      rewrite Hstep, IH. unfold bind. by rewrite Hstep'.
    + change ((player :: l1) ++ l2) with (player :: (l1 ++ l2)).
      unfold bind. by rewrite !for_each_player_not_object.
Qed.

(** An entry that is not an object ends the loop with an AttributeError:
    the players before it have been processed in full, in the state the
    loop over them alone would leave; the results gathered so far are not
    returned and the players after it are not looked at. *)
Theorem for_each_player_stops processor l1 v rest results count w :
  forallb is_object l1 = true ->
  is_object v = false ->
  exists rs c w1,
    for_each_player env processor l1 results count w = (Ok (rs, c), w1) /\
    for_each_player env processor (l1 ++ v :: rest) results count w
    = (Raise (AttributeError v "get"), w1).
Proof.
  intros Hl1 Hv.
  destruct (for_each_player_prefix processor l1 Hl1 results count w)
    as (rs & c & w1 & Hrun & Hrest).
  exists rs, c, w1. split; [exact Hrun|].
  rewrite Hrest. by apply for_each_player_not_object.
Qed.

(** What a completed loop has done, player by player. *)
Lemma for_each_player_accounts processor players :
  forall results count w rs c w',
    for_each_player env processor players results count w = (Ok (rs, c), w') ->
    exists outs objs,
      rs = results ++ outs /\
      c = count + count_success outs /\
      length outs = length players /\
      provider_calls (trace w') = provider_calls (trace w) ++ map player_id outs /\
      client_calls (trace w') = client_calls (trace w) /\
      stored_objects (trace w') = stored_objects (trace w) ++ objs /\
      map obj_key objs
      = map (fun o => blob_name_of env (player_id o)) (List.filter success outs) /\
      Forall (fun o => obj_bucket o = self_bucket_name processor /\
                       obj_content_type o = "text/csv") objs /\
      length (log w') + count_success outs = length (log w) + length outs.
Proof.
  induction players as [|player rest IH]; intros results count w rs c w' Hrun.
  - simpl in Hrun. unfold ret in Hrun. injection Hrun as <- <- <-.
    exists [], []. rewrite !app_nil_r. unfold count_success. simpl.
    repeat split; [lia|constructor].
  - destruct (is_object player) eqn:Hobj.
    2:{ rewrite for_each_player_not_object in Hrun by done. discriminate. }
    destruct player; try discriminate.
    destruct (for_each_player_object env processor d rest results count w)
      as (s & m & w1 & Hp & Hstep).
    destruct (process_player_cases env processor (dict_get d "id" JNull)
                (dict_get d "name" JNull) w)
      as (s' & m' & w1' & evs & Hp' & Ht & Hst & _ & Hs).
    rewrite Hp in Hp'. injection Hp' as <- <- <-.
    rewrite Hstep in Hrun.
    apply IH in Hrun as (outs & objs & -> & -> & Hlen & Hprov & Hcli & Hsto & Hkeys
                         & Hobjs & Hlog).
    destruct (storage_calls_only evs Hst) as [Hp0 Hc0].
    rewrite Ht in Hprov, Hcli, Hsto.
    change (EvProvider ?i :: evs) with ([EvProvider i] ++ evs) in Hprov, Hcli, Hsto.
    rewrite !provider_calls_app, Hp0 in Hprov.
    rewrite !client_calls_app, Hc0 in Hcli.
    rewrite !stored_objects_app in Hsto. simpl in Hprov, Hcli, Hsto.
    rewrite app_nil_r in Hcli.
    exists (mkOutcome (dict_get d "id" JNull) (dict_get d "name" JNull) s m :: outs),
           (stored_objects evs ++ objs).
    split; [by rewrite <- app_assoc|].
    change (?o :: outs) with ([o] ++ outs).
    rewrite count_success_app, count_success_one. simpl success.
    split; [destruct s; lia|]. split; [simpl; lia|].
    split; [by rewrite Hprov, <- app_assoc|].
    split; [done|]. split; [by rewrite Hsto, <- app_assoc|].
    destruct s.
    + destruct Hs as [(data & Hev) Hl]. rewrite Hev. simpl.
      split; [by rewrite Hkeys|]. split; [constructor; [done|exact Hobjs]|].
      rewrite <- Hl. lia.
    + destruct Hs as [Hev Hl]. rewrite Hev. simpl.
      split; [exact Hkeys|]. split; [exact Hobjs|]. lia.
Qed.

(** The calls of a loop, whether it completes or raises: none to the
    client constructor; one to the provider and at most one upload for
    each player it has reached. *)
Lemma for_each_player_calls processor players :
  forall results count w r w',
    for_each_player env processor players results count w = (r, w') ->
    client_calls (trace w') = client_calls (trace w) /\
    exists k,
      k <= length players /\
      provider_calls (trace w')
      = provider_calls (trace w) ++ map entry_id (take k players) /\
      length (upload_calls (trace w')) <= length (upload_calls (trace w)) + k.
Proof.
  induction players as [|player rest IH]; intros results count w r w' Hrun.
  - simpl in Hrun. unfold ret in Hrun. injection Hrun as _ <-.
    split; [done|]. exists 0. simpl. rewrite app_nil_r. repeat split; lia.
  - destruct (is_object player) eqn:Hobj.
    2:{ rewrite for_each_player_not_object in Hrun by done.
        injection Hrun as _ <-. split; [done|]. exists 0. simpl.
        rewrite app_nil_r. repeat split; lia. }
    destruct player; try discriminate.
    destruct (for_each_player_object env processor d rest results count w)
      as (s & m & w1 & Hp & Hstep).
    destruct (process_player_cases env processor (dict_get d "id" JNull)
                (dict_get d "name" JNull) w)
      as (s' & m' & w1' & evs & Hp' & Ht & Hst & Hup & _).
    rewrite Hp in Hp'. injection Hp' as <- <- <-.
    rewrite Hstep in Hrun. apply IH in Hrun as (Hcli & k & Hk & Hprov & Hupl).
    destruct (storage_calls_only evs Hst) as [Hp0 Hc0].
    rewrite Ht in Hprov, Hcli, Hupl.
    change (EvProvider ?i :: evs) with ([EvProvider i] ++ evs) in Hprov, Hcli, Hupl.
    rewrite !provider_calls_app, Hp0 in Hprov.
    rewrite !client_calls_app, Hc0 in Hcli.
    rewrite !upload_calls_app, !length_app in Hupl. simpl in Hprov, Hcli, Hupl.
    rewrite app_nil_r in Hcli.
    split; [done|]. exists (S k). simpl.
    split; [lia|]. split; [by rewrite Hprov, <- app_assoc|]. lia.
Qed.

End Loop.

(** ** The handler, case by case *)

Section HandlerCases.

Variable env : Env.

Lemma validate_truthy body p b players :
  validate body = Some (p, b, players) ->
  truthy p = true /\ truthy b = true /\ truthy players = true /\
  is_object body = true.
Proof.
  unfold validate. destruct body; try discriminate.
  destruct (truthy (JObj d)); [|discriminate].
  destruct (py_all _) eqn:Hall; [|discriminate].
  intros H. injection H as <- <- <-. simpl in Hall.
  repeat (apply andb_true_iff in Hall as [? Hall]). done.
Qed.

Lemma echoes_ids l outs :
  Forall2 echoes l outs ->
  map player_id outs = map entry_id l /\ forallb is_object l = true.
Proof.
  induction 1 as [|p o l outs (d & -> & Hid & _) _ [IHi IHo]]; [done|].
  simpl. by rewrite Hid, IHi, IHo.
Qed.

(** What can be iterated without being a list has no element, or a first
    element that is a string. *)
Lemma py_iter_not_a_list players items :
  is_list players = false ->
  py_iter players = Ok items ->
  items = [] \/ exists s rest, items = JStr s :: rest.
Proof.
  intros Hl Hi. destruct players; try discriminate; simpl in Hi;
    injection Hi as <-.
  - destruct s; [by left|right; simpl; eauto].
  - destruct (map_to_list d) as [|[k v] kvs]; [by left|right; simpl; eauto].
Qed.

Lemma process_nba_stats_except request w :
  process_nba_stats env request w
  = match handler_try env request w with
    | (Ok resp, w') => (Ok resp, w')
    | (Raise e, w') => internal_error env e w'
    end.
Proof. reflexivity. Qed.

Lemma handler_try_unreadable request e w :
  get_json request = Raise e -> handler_try env request w = (Raise e, w).
Proof. intros Hj. unfold handler_try, bind, lift. by rewrite Hj. Qed.

Lemma handler_try_client_failure request body p b players e w :
  get_json request = Ok body ->
  validate body = Some (p, b, players) ->
  storage_Client env (trace w) p = Raise e ->
  handler_try env request w
  = (Raise e, mkState (trace w ++ [EvClient p]) (log w)).
Proof.
  intros Hj Hv Hc.
  rewrite (handler_try_validated env request body p b players w Hj Hv).
  unfold NBAStatsProcessor_init, bind at 1, bind at 1, external. by rewrite Hc.
Qed.

(** Once the request is validated and the client is made, the response
    is decided by the loop. *)
Lemma handler_validated_run request body p b players w :
  get_json request = Ok body ->
  validate body = Some (p, b, players) ->
  storage_Client env (trace w) p = Ok tt ->
  process_nba_stats env request w
  = match py_iter players with
    | Raise e => internal_error env e (mkState (trace w ++ [EvClient p]) (log w))
    | Ok items =>
        match for_each_player env (mkProcessor p b p) items [] 0
                (mkState (trace w ++ [EvClient p]) (log w)) with
        | (Raise e, w1) => internal_error env e w1
        | (Ok acc, w1) =>
            match py_len players with
            | Ok n => (Ok (ReportBody true n (snd acc) (fst acc), 200%Z), w1)
            | Raise e => internal_error env e w1
            end
        end
    end.
Proof.
  intros Hj Hv Hc. rewrite process_nba_stats_except.
  rewrite (handler_try_validated env request body p b players w Hj Hv).
  unfold NBAStatsProcessor_init, bind at 1, bind at 1, external, ret. rewrite Hc.
  unfold bind at 1, lift at 1.
  destruct (py_iter players) as [items|e]; [|reflexivity].
  unfold bind at 1.
  destruct (for_each_player env _ items [] 0 _) as [[acc|e] w1]; [|reflexivity].
  unfold bind, lift, ret.
  destruct (py_len players) as [n|e]; reflexivity.
Qed.

(** When the storage client cannot be made, the request ends there: the
    constructor is the only call that was made, no player is fetched and
    nothing is uploaded, and the response is the 500 with the text of the
    constructor's error. *)
Theorem client_failure_processes_nothing request body p b players e w :
  get_json request = Ok body ->
  validate body = Some (p, b, players) ->
  storage_Client env (trace w) p = Raise e ->
  exists w',
    process_nba_stats env request w
    = (Ok (ErrorBody false (exn_str e), 500%Z), w') /\
    trace w' = trace w ++ [EvClient p] /\
    provider_calls (trace w') = provider_calls (trace w) /\
    upload_calls (trace w') = upload_calls (trace w) /\
    log w' = log w ++ ["予期せぬエラーが発生しました: " +:+ format_exc env e].
Proof.
  intros Hj Hv Hc. rewrite process_nba_stats_except.
  rewrite (handler_try_client_failure request body p b players e w Hj Hv Hc).
  eexists. split; [reflexivity|]. simpl.
  rewrite provider_calls_app, upload_calls_app. simpl.
  by rewrite !app_nil_r.
Qed.

(** A request whose body cannot be read ([get_json] raises), or whose
    body is truthy without being an object (a list, a string, a number,
    true), is answered with 500: the error text is the one of the
    exception, for the second an AttributeError on [get]; no call leaves
    the process. *)
Theorem unreadable_body_500 request w :
  (forall e, get_json request = Raise e ->
             process_nba_stats env request w
             = (Ok (ErrorBody false (exn_str e), 500%Z),
                mkState (trace w)
                        (log w ++ ["予期せぬエラーが発生しました: "
                                   +:+ format_exc env e]))) /\
  (forall body,
      get_json request = Ok body ->
      truthy body = true ->
      is_object body = false ->
      process_nba_stats env request w
      = (Ok (ErrorBody false
               ("'" +:+ type_name body +:+ "' object has no attribute 'get'"),
             500%Z),
         mkState (trace w)
                 (log w ++ ["予期せぬエラーが発生しました: "
                            +:+ format_exc env (AttributeError body "get")]))).
Proof.
  split.
  - intros e Hj. rewrite process_nba_stats_except.
    by rewrite (handler_try_unreadable request e w Hj).
  - intros body Hj Ht Ho. rewrite process_nba_stats_except.
    assert (validate body = None) as Hv by (by destruct body).
    rewrite (handler_try_rejected env request body w Hj Hv), Ht, Ho.
    reflexivity.
Qed.

End HandlerCases.

(** ** Responses and what was done for them *)

Section HandlerEffects.

Variable env : Env.

(** A [players] value that is truthy without being a list passes the
    validation and fails in the loop, after the storage client was made
    and before any player is fetched: the response is a 500 whose error
    says that the value cannot be iterated (a number, true) or that a
    string has no [get] (a string, whose elements are strings, and a
    dictionary, whose elements are its keys). *)
Theorem players_not_a_list_500 request body p b players w :
  get_json request = Ok body ->
  validate body = Some (p, b, players) ->
  storage_Client env (trace w) p = Ok tt ->
  is_list players = false ->
  exists line,
    process_nba_stats env request w
    = (Ok (ErrorBody false (not_a_list_error players), 500%Z),
       mkState (trace w ++ [EvClient p]) (log w ++ [line])).
Proof.
  intros Hj Hv Hc Hl.
  destruct (validate_truthy body p b players Hv) as (_ & _ & Ht & _).
  rewrite (handler_validated_run env request body p b players w Hj Hv Hc).
  destruct players as [|[|]|n|s|l|d]; try discriminate; simpl py_iter;
    cbv beta iota.
  - eexists. reflexivity.
  - eexists. reflexivity.
  - destruct s as [|a s]; [discriminate|]. simpl str_iter.
    rewrite for_each_player_not_object by done. eexists. reflexivity.
  - destruct (map_to_list d) as [|[k v] kvs] eqn:Hd.
    + apply map_to_list_empty_iff in Hd. subst d. simpl in Ht.
      rewrite map_size_empty in Ht. discriminate.
    + simpl map. rewrite for_each_player_not_object by done.
      eexists. reflexivity.
Qed.

(** A list of players with an entry that is not an object is answered
    with 500, and the response says nothing of the players before that
    entry although they were processed in full: the provider was asked
    for each of them, in order, and as many objects were written as the
    loop over them alone counts successes.  The players after the entry
    are not touched. *)
Theorem partial_processing_before_500 request body p b l1 v rest w :
  get_json request = Ok body ->
  validate body = Some (p, b, JArr (l1 ++ v :: rest)) ->
  storage_Client env (trace w) p = Ok tt ->
  forallb is_object l1 = true ->
  is_object v = false ->
  exists rs c w1,
    for_each_player env (mkProcessor p b p) l1 [] 0
                    (mkState (trace w ++ [EvClient p]) (log w))
    = (Ok (rs, c), w1) /\
    process_nba_stats env request w
    = (Ok (ErrorBody false
             ("'" +:+ type_name v +:+ "' object has no attribute 'get'"), 500%Z),
       mkState (trace w1)
               (log w1 ++ ["予期せぬエラーが発生しました: "
                           +:+ format_exc env (AttributeError v "get")])) /\
    provider_calls (trace w1) = provider_calls (trace w) ++ map entry_id l1 /\
    length (stored_objects (trace w1)) = length (stored_objects (trace w)) + c.
Proof.
  intros Hj Hv Hc Hl1 Hobj.
  destruct (for_each_player_prefix env (mkProcessor p b p) l1 Hl1 [] 0
              (mkState (trace w ++ [EvClient p]) (log w)))
    as (rs & c & w1 & Hrun & Hrest).
  exists rs, c, w1. split; [exact Hrun|].
  rewrite (handler_validated_run env request body p b _ w Hj Hv Hc).
  simpl py_iter. cbv beta iota.
  rewrite Hrest, for_each_player_not_object by done. split; [reflexivity|].
  pose proof Hrun as Hinv.
  apply for_each_player_inv in Hinv as (outs' & Hrs' & _ & Hall).
  apply for_each_player_accounts in Hrun
    as (outs & objs & Hrs & Hcnt & _ & Hprov & _ & Hsto & Hkeys & _ & _).
  simpl in Hrs, Hrs', Hcnt, Hprov, Hsto. subst rs. subst outs'.
  destruct (echoes_ids l1 outs Hall) as [Hids _].
  rewrite provider_calls_app in Hprov. simpl in Hprov. rewrite app_nil_r in Hprov.
  rewrite stored_objects_app in Hsto. simpl in Hsto. rewrite app_nil_r in Hsto.
  split; [by rewrite Hprov, Hids|].
  rewrite Hsto, length_app. f_equal.
  apply (f_equal length) in Hkeys. rewrite !length_map in Hkeys.
  rewrite Hkeys, Hcnt. reflexivity.
Qed.

(** What stands behind a report.  The storage client was made once, for
    the requested project; the provider was asked once per player, in the
    order of the results; the objects written during the request are as
    many as [success_count], their keys are the keys of the successful
    results, in order, all in the requested bucket and with content type
    text/csv; and every failed player left exactly one line in the log. *)
Theorem report_accounts_for_effects request w s t c rs st w' :
  process_nba_stats env request w = (Ok (ReportBody s t c rs, st), w') ->
  exists p b players objs,
    validated request = Some (p, b, players) /\
    client_calls (trace w') = client_calls (trace w) ++ [p] /\
    provider_calls (trace w') = provider_calls (trace w) ++ map player_id rs /\
    stored_objects (trace w') = stored_objects (trace w) ++ objs /\
    length objs = c /\
    map obj_key objs
    = map (fun o => blob_name_of env (player_id o)) (List.filter success rs) /\
    Forall (fun o => obj_bucket o = b /\ obj_content_type o = "text/csv") objs /\
    length (log w') + c = length (log w) + t.
Proof.
  intros Hrun. pose proof Hrun as Hinv.
  apply report_inv in Hinv
    as (body & p & b & l & Hj & Hv & Hc & _ & _ & Ht & Hcnt & Hall).
  rewrite (handler_validated_run env request body p b _ w Hj Hv Hc) in Hrun.
  simpl py_iter in Hrun. simpl py_len in Hrun. cbv beta iota in Hrun.
  destruct (for_each_player env _ l [] 0 _) as [[[rs' c']|e] w1] eqn:Hloop;
    [|discriminate].
  simpl in Hrun. injection Hrun as <- <- <- <- <- <-.
  apply for_each_player_accounts in Hloop
    as (outs & objs & Hrs & Hc' & Hlen & Hprov & Hcli & Hsto & Hkeys & Hobjs & Hlog).
  simpl in Hrs, Hc', Hprov, Hcli, Hsto, Hlog, Hobjs. subst rs'.
  rewrite provider_calls_app in Hprov. rewrite client_calls_app in Hcli.
  rewrite stored_objects_app in Hsto. simpl in Hprov, Hcli, Hsto.
  rewrite app_nil_r in Hprov, Hsto.
  exists p, b, (JArr l), objs.
  split; [by unfold validated; rewrite Hj|].
  split; [exact Hcli|]. split; [exact Hprov|]. split; [exact Hsto|].
  split.
  { apply (f_equal length) in Hkeys. rewrite !length_map in Hkeys.
    rewrite Hkeys, Hc'. reflexivity. }
  split; [exact Hkeys|]. split; [exact Hobjs|].
  rewrite Hc', <- Hlen. exact Hlog.
Qed.

(** The status is 200 exactly for the requests whose body passes the
    validation, whose players are a list of objects, and for which the
    storage client can be made. *)
Theorem status_200_iff request w :
  (exists resp w', process_nba_stats env request w = (Ok (resp, 200%Z), w')) <->
  (exists p b l,
      validated request = Some (p, b, JArr l) /\
      forallb is_object l = true /\
      storage_Client env (trace w) p = Ok tt).
Proof.
  split.
  - intros (resp & w' & Hrun).
    assert (exists t c rs, resp = ReportBody true t c rs) as (t & c & rs & ->).
    { rewrite process_nba_stats_except in Hrun.
      destruct (handler_try env request w) as [[r|e] w1] eqn:Htry;
        [|discriminate].
      injection Hrun as -> _.
      apply handler_try_structured in Htry.
      destruct resp as [[|] err|[|] t c rs]; try discriminate; eauto. }
    apply report_inv in Hrun
      as (body & p & b & l & Hj & Hv & Hc & _ & _ & _ & _ & Hall).
    exists p, b, l. split; [by unfold validated; rewrite Hj|].
    split; [|done]. by destruct (echoes_ids l rs Hall).
  - intros (p & b & l & Hv & Hobj & Hc). unfold validated in Hv.
    destruct (get_json request) as [body|e] eqn:Hj; [|discriminate].
    destruct (valid_request_processed env request body p b l w Hj Hv Hobj Hc)
      as (c & rs & w' & Hrun).
    eauto.
Qed.

(** The status is 400 exactly for the requests that do not pass the
    validation with a body that is falsy or an object, and the state is
    then untouched.  The error text tells the two checks apart: a falsy
    body, the empty object included, is told that a request body is
    required; an object with an absent or falsy field is told that the
    three fields are required. *)
Theorem status_400_iff request w resp w' :
  process_nba_stats env request w = (Ok (resp, 400%Z), w') <->
  (exists body,
      get_json request = Ok body /\ w' = w /\
      ((truthy body = false /\
        resp = ErrorBody false "リクエストボディが必要です") \/
       (truthy body = true /\ is_object body = true /\
        (absent_or_falsy (field body "project_id")
         || absent_or_falsy (field body "bucket_name")
         || absent_or_falsy (field body "players")) = true /\
        resp = ErrorBody false "project_id, bucket_name, players が必要です"))).
Proof.
  assert (forall d : gmap string json,
             (absent_or_falsy (field (JObj d) "project_id")
              || absent_or_falsy (field (JObj d) "bucket_name")
              || absent_or_falsy (field (JObj d) "players"))
             = negb (py_all [dict_get d "project_id" JNull;
                             dict_get d "bucket_name" JNull;
                             dict_get d "players" (JArr [])])) as Hfields.
  { intros d. unfold field.
    rewrite (absent_or_falsy_get d "project_id" JNull),
            (absent_or_falsy_get d "bucket_name" JNull),
            (absent_or_falsy_get d "players" (JArr [])) by done.
    unfold py_all. cbn [forallb andb].
    by destruct (truthy (dict_get d "project_id" JNull)),
                (truthy (dict_get d "bucket_name" JNull)),
                (truthy (dict_get d "players" (JArr []))). }
  split.
  - intros Hrun. destruct (get_json request) as [body|e] eqn:Hj.
    2:{ rewrite process_nba_stats_except,
          (handler_try_unreadable env request e w Hj) in Hrun. discriminate. }
    exists body. split; [done|].
    destruct (validate body) as [[[p b] players]|] eqn:Hv.
    + exfalso. destruct (storage_Client env (trace w) p) as [[]|e] eqn:Hc.
      * rewrite (handler_validated_run env request body p b players w Hj Hv Hc)
          in Hrun.
        destruct (py_iter players) as [items|e]; [|discriminate].
        destruct (for_each_player env _ items [] 0 _) as [[acc|e] w1];
          [|discriminate].
        destruct (py_len players) as [n|e]; discriminate.
      * rewrite process_nba_stats_except,
          (handler_try_client_failure env request body p b players e w Hj Hv Hc)
          in Hrun. discriminate.
    + rewrite process_nba_stats_except,
        (handler_try_rejected env request body w Hj Hv) in Hrun.
      destruct (truthy body) eqn:Ht; simpl in Hrun.
      * destruct body; try discriminate. simpl in Hrun.
        injection Hrun as <- <-. split; [done|]. right.
        repeat split; try done. rewrite Hfields.
        unfold validate in Hv. rewrite Ht in Hv.
        by destruct (py_all _).
      * injection Hrun as <- <-. split; [done|]. left. done.
  - intros (body & Hj & -> & Hcase). rewrite process_nba_stats_except.
    assert (validate body = None) as Hv.
    { destruct Hcase as [[Ht _] | (Ht & Ho & Hf & _)].
      - unfold validate. destruct body; try done. by rewrite Ht.
      - destruct body; try discriminate. rewrite Hfields in Hf.
        unfold validate. rewrite Ht.
        destruct (py_all _); [discriminate|done]. }
    rewrite (handler_try_rejected env request body w Hj Hv).
    destruct Hcase as [[Ht ->] | (Ht & Ho & _ & ->)]; rewrite Ht; simpl.
    + reflexivity.
    + rewrite Ho. reflexivity.
Qed.

(** The trace a validated request leaves is the one its loop leaves. *)
Lemma handler_validated_state request body p b players w items r w1 :
  get_json request = Ok body ->
  validate body = Some (p, b, players) ->
  storage_Client env (trace w) p = Ok tt ->
  py_iter players = Ok items ->
  for_each_player env (mkProcessor p b p) items [] 0
                  (mkState (trace w ++ [EvClient p]) (log w)) = (r, w1) ->
  trace (process_nba_stats env request w).2 = trace w1.
Proof.
  intros Hj Hv Hc Hi Hloop.
  rewrite (handler_validated_run env request body p b players w Hj Hv Hc), Hi, Hloop.
  destruct r as [acc|e]; [|reflexivity]. by destruct (py_len players).
Qed.

(** The calls of any request, whatever its response.  The constructor of
    the storage client is called at most once, and exactly when the
    request passes the validation.  The provider is asked at most once
    per player entry and never for a request that does not pass, and
    there is at most one upload per call to the provider: nothing is
    retried, nothing is fetched twice. *)
Theorem external_calls_of_a_request request w :
  client_calls (trace (process_nba_stats env request w).2)
  = client_calls (trace w)
    ++ match validated request with
       | Some (p, _, _) => [p]
       | None => []
       end /\
  exists k,
    k <= match validated request with
         | Some (_, _, players) => entries players
         | None => 0
         end /\
    length (provider_calls (trace (process_nba_stats env request w).2))
    = length (provider_calls (trace w)) + k /\
    length (upload_calls (trace (process_nba_stats env request w).2))
    <= length (upload_calls (trace w)) + k.
Proof.
  assert (forall t p,
             client_calls (t ++ [EvClient p]) = client_calls t ++ [p] /\
             provider_calls (t ++ [EvClient p]) = provider_calls t /\
             upload_calls (t ++ [EvClient p]) = upload_calls t) as Hclient.
  { intros t p. rewrite client_calls_app, provider_calls_app, upload_calls_app.
    simpl. by rewrite !app_nil_r. }
  unfold validated. destruct (get_json request) as [body|e] eqn:Hj.
  2:{ rewrite process_nba_stats_except, (handler_try_unreadable env request e w Hj).
      simpl. rewrite app_nil_r. split; [done|]. exists 0. repeat split; lia. }
  destruct (validate body) as [[[p b] players]|] eqn:Hv.
  2:{ rewrite process_nba_stats_except,
        (handler_try_rejected env request body w Hj Hv).
      rewrite app_nil_r.
      destruct (negb (truthy body)); [|destruct (is_object body)]; simpl;
        (split; [done|]); exists 0; repeat split; lia. }
  destruct (Hclient (trace w) p) as (Hc1 & Hc2 & Hc3).
  destruct (storage_Client env (trace w) p) as [[]|e] eqn:Hc.
  2:{ rewrite process_nba_stats_except,
        (handler_try_client_failure env request body p b players e w Hj Hv Hc).
      simpl. rewrite Hc1, Hc2, Hc3. split; [done|]. exists 0. repeat split; lia. }
  destruct (py_iter players) as [items|e] eqn:Hi.
  2:{ rewrite (handler_validated_run env request body p b players w Hj Hv Hc), Hi.
      simpl. rewrite Hc1, Hc2, Hc3. split; [done|]. exists 0. repeat split; lia. }
  destruct (for_each_player env (mkProcessor p b p) items [] 0
              (mkState (trace w ++ [EvClient p]) (log w))) as [r w1] eqn:Hloop.
  rewrite (handler_validated_state request body p b players w items r w1
             Hj Hv Hc Hi Hloop).
  destruct (is_list players) eqn:Hl.
  - destruct players; try discriminate. simpl in Hi. injection Hi as <-.
    apply for_each_player_calls in Hloop as (Hcli & k & Hk & Hprov & Hupl).
    simpl in Hcli, Hprov, Hupl. rewrite Hc1 in Hcli. rewrite Hc2 in Hprov.
    rewrite Hc3 in Hupl. split; [done|]. exists k. simpl. split; [done|].
    split; [|done]. rewrite Hprov, length_app, length_map, length_take. lia.
  - assert (w1 = mkState (trace w ++ [EvClient p]) (log w)) as ->.
    { destruct (py_iter_not_a_list players items Hl Hi) as [-> | (s & rest & ->)].
      - simpl in Hloop. unfold ret in Hloop. by injection Hloop as _ <-.
      - rewrite for_each_player_not_object in Hloop by done.
        by injection Hloop as _ <-. }
    simpl. rewrite Hc1, Hc2, Hc3. split; [done|]. exists 0. repeat split; lia.
Qed.

End HandlerEffects.

(** ** The further properties at work *)

Lemma blob_name_of_inj_witness :
  blob_name_of (Demo.env [] true true) (JNum 2544)
  = blob_name_of (Demo.env [] true true) (JNum 2544).
Proof.
  apply (blob_name_of_inj (Demo.env [] true true) 2544 2544). reflexivity.
Defined.

Lemma for_each_player_stops_witness :
  exists rs c w1,
    for_each_player (Demo.env [] true true) Demo.processor [Demo.lebron] [] 0
                    Demo.start = (Ok (rs, c), w1) /\
    for_each_player (Demo.env [] true true) Demo.processor
                    ([Demo.lebron] ++ JNum 5 :: [Demo.curry]) [] 0 Demo.start
    = (Raise (AttributeError (JNum 5) "get"), w1).
Proof.
  apply (for_each_player_stops (Demo.env [] true true) Demo.processor
           [Demo.lebron] (JNum 5) [Demo.curry] [] 0 Demo.start); reflexivity.
Defined.

Lemma client_failure_processes_nothing_witness :
  exists w',
    process_nba_stats (Demo.env [] false true) (MockRequest Demo.test_data)
                      Demo.start
    = (Ok (ErrorBody false "no credentials", 500%Z), w') /\
    trace w' = [EvClient (JStr "your-project-id")] /\
    provider_calls (trace w') = [] /\
    upload_calls (trace w') = [] /\
    log w' = ["予期せぬエラーが発生しました: no credentials"].
Proof.
  apply (client_failure_processes_nothing (Demo.env [] false true)
           (MockRequest Demo.test_data) Demo.test_data
           (JStr "your-project-id") (JStr "your-bucket-name")
           (JArr [Demo.lebron; Demo.curry])
           (mkExn "DefaultCredentialsError" "no credentials") Demo.start).
  - reflexivity.
  - vm_compute. reflexivity.
  - reflexivity.
Defined.

Lemma unreadable_body_500_witness :
  process_nba_stats (Demo.env [] true true) (MockRequest (JStr "players")) Demo.start
  = (Ok (ErrorBody false "'str' object has no attribute 'get'", 500%Z),
     mkState [] ["予期せぬエラーが発生しました: 'str' object has no attribute 'get'"]).
Proof.
  pose proof (unreadable_body_500 (Demo.env [] true true)
                (MockRequest (JStr "players")) Demo.start) as [_ H].
  apply (H (JStr "players")); reflexivity.
Defined.

Lemma players_not_a_list_500_witness :
  exists line,
    process_nba_stats (Demo.env [] true true)
                      (MockRequest (Demo.body_of (JNum 2544))) Demo.start
    = (Ok (ErrorBody false "'int' object is not iterable", 500%Z),
       mkState [EvClient (JStr "your-project-id")] [line]).
Proof.
  apply (players_not_a_list_500 (Demo.env [] true true)
           (MockRequest (Demo.body_of (JNum 2544))) (Demo.body_of (JNum 2544))
           (JStr "your-project-id") (JStr "your-bucket-name") (JNum 2544)
           Demo.start).
  - reflexivity.
  - vm_compute. reflexivity.
  - reflexivity.
  - reflexivity.
Defined.

Lemma partial_processing_before_500_witness :
  exists rs c w1,
    for_each_player (Demo.env [] true true) Demo.processor [Demo.lebron] [] 0
                    (mkState [EvClient (JStr "your-project-id")] [])
    = (Ok (rs, c), w1) /\
    process_nba_stats (Demo.env [] true true)
                      (MockRequest (Demo.body_of (JArr [Demo.lebron; JNum 5; Demo.curry])))
                      Demo.start
    = (Ok (ErrorBody false "'int' object has no attribute 'get'", 500%Z),
       mkState (trace w1)
               (log w1 ++ ["予期せぬエラーが発生しました: 'int' object has no attribute 'get'"])) /\
    provider_calls (trace w1) = [JNum 2544] /\
    length (stored_objects (trace w1)) = c.
Proof.
  apply (partial_processing_before_500 (Demo.env [] true true)
           (MockRequest (Demo.body_of (JArr [Demo.lebron; JNum 5; Demo.curry])))
           (Demo.body_of (JArr [Demo.lebron; JNum 5; Demo.curry]))
           (JStr "your-project-id") (JStr "your-bucket-name")
           [Demo.lebron] (JNum 5) [Demo.curry] Demo.start).
  - reflexivity.
  - vm_compute. reflexivity.
  - reflexivity.
  - reflexivity.
  - reflexivity.
Defined.

Lemma report_accounts_for_effects_witness :
  exists p b players objs,
    validated (MockRequest Demo.test_data) = Some (p, b, players) /\
    client_calls (trace (process_nba_stats (Demo.env [201939%Z] true true)
                           (MockRequest Demo.test_data) Demo.start).2)
    = [p] /\
    provider_calls (trace (process_nba_stats (Demo.env [201939%Z] true true)
                             (MockRequest Demo.test_data) Demo.start).2)
    = [JNum 2544; JNum 201939] /\
    stored_objects (trace (process_nba_stats (Demo.env [201939%Z] true true)
                             (MockRequest Demo.test_data) Demo.start).2)
    = objs /\
    length objs = 1 /\
    map obj_key objs = ["player_stats/2544_play_stats.csv"] /\
    Forall (fun o => obj_bucket o = b /\ obj_content_type o = "text/csv") objs /\
    length (log (process_nba_stats (Demo.env [201939%Z] true true)
                   (MockRequest Demo.test_data) Demo.start).2) + 1 = 2.
Proof.
  apply (report_accounts_for_effects (Demo.env [201939%Z] true true)
           (MockRequest Demo.test_data) Demo.start true 2 1
           [mkOutcome (JNum 2544) (JStr "LeBron James") true
                      "選手 LeBron James のデータを正常に処理しました";
            mkOutcome (JNum 201939) (JStr "Stephen Curry") false
                      "選手 Stephen Curry のデータ取得に失敗しました"]
           200%Z
           (process_nba_stats (Demo.env [201939%Z] true true)
              (MockRequest Demo.test_data) Demo.start).2).
  vm_compute. reflexivity.
Defined.

Lemma status_200_iff_witness :
  exists resp w',
    process_nba_stats (Demo.env [] true false) (MockRequest Demo.test_data)
                      Demo.start
    = (Ok (resp, 200%Z), w').
Proof.
  apply (status_200_iff (Demo.env [] true false) (MockRequest Demo.test_data)
           Demo.start).
  exists (JStr "your-project-id"), (JStr "your-bucket-name"),
         [Demo.lebron; Demo.curry].
  split; [vm_compute; reflexivity|]. split; reflexivity.
Defined.

Lemma status_400_iff_witness :
  process_nba_stats (Demo.env [] true true) (MockRequest (JObj ∅)) Demo.start
  = (Ok (ErrorBody false "リクエストボディが必要です", 400%Z), Demo.start).
Proof.
  apply (status_400_iff (Demo.env [] true true) (MockRequest (JObj ∅)) Demo.start).
  exists (JObj ∅). split; [reflexivity|]. split; [reflexivity|].
  left. split; reflexivity.
Defined.
